(** * source_file: typing of dotenv values

    A shallow embedding of [plugins/modules/files/source_file.py]: the
    recursive value typer [typed_value] and the line loop of [main].

    Python [str] values are modelled as [string]; a character is a code
    point below 256 and the string methods follow Python 3 on that range. *)

From Stdlib Require Import Bool Arith List Lia.
From Stdlib Require Import Ascii String.
Import ListNotations.
Open Scope bool_scope.
Open Scope string_scope.
Open Scope nat_scope.

Set Warnings "-register-all".

(* ================================================================= *)
(** ** Characters *)

Module Char.

Definition code (c : ascii) : nat := nat_of_ascii c.

Definition squote : ascii := "'"%char.
Definition dquote : ascii := "034"%char.
Definition comma : ascii := ","%char.
Definition semicolon : ascii := ";"%char.
Definition equals : ascii := "="%char.
Definition newline : ascii := "010"%char.
Definition underscore : ascii := "_"%char.
Definition hyphen : ascii := "-"%char.

Definition between (lo hi n : nat) : bool := (lo <=? n) && (n <=? hi).

(** [str.isspace] on one character: TAB..CR, FS..US, space, NEL, NBSP. *)
Definition isspace (c : ascii) : bool :=
  let n := code c in
  between 9 13 n || between 28 32 n || (n =? 133) || (n =? 160).

(** The regex classes [[a-z]], [[A-Z]] and [[0-9]]. *)
Definition is_lower_az (c : ascii) : bool := between 97 122 (code c).
Definition is_upper_az (c : ascii) : bool := between 65 90 (code c).
Definition is_digit (c : ascii) : bool := between 48 57 (code c).

(** [str.lower] on one character: A..Z and the Latin-1 capitals
    (192..222 but the multiplication sign 215) move up by 32. *)
Definition lower (c : ascii) : ascii :=
  let n := code c in
  if between 65 90 n || (between 192 222 n && negb (n =? 215))
  then ascii_of_nat (n + 32)
  else c.

End Char.

(* ================================================================= *)
(** ** String methods used by the module *)

Module Str.

(** [c in s] for a one-character [c]. *)
Fixpoint contains (c : ascii) (s : string) : bool :=
  match s with
  | EmptyString => false
  | String a s' => Ascii.eqb a c || contains c s'
  end.

(** [s.count(c)] for a one-character [c]. *)
Fixpoint count (c : ascii) (s : string) : nat :=
  match s with
  | EmptyString => 0
  | String a s' => (if Ascii.eqb a c then 1 else 0) + count c s'
  end.

(** [s.startswith(c)] and [s.endswith(c)] for a one-character [c]. *)
Definition startswith (c : ascii) (s : string) : bool :=
  match s with
  | EmptyString => false
  | String a _ => Ascii.eqb a c
  end.

Fixpoint endswith (c : ascii) (s : string) : bool :=
  match s with
  | EmptyString => false
  | String a EmptyString => Ascii.eqb a c
  | String _ s' => endswith c s'
  end.

(** [s[:-1]]. *)
Fixpoint drop_last (s : string) : string :=
  match s with
  | EmptyString => EmptyString
  | String _ EmptyString => EmptyString
  | String a s' => String a (drop_last s')
  end.

(** [s[1:-1]]. *)
Definition slice_1_m1 (s : string) : string :=
  match s with
  | EmptyString => EmptyString
  | String _ s' => drop_last s'
  end.

Fixpoint lstrip (s : string) : string :=
  match s with
  | EmptyString => EmptyString
  | String a s' => if Char.isspace a then lstrip s' else s
  end.

Fixpoint rstrip (s : string) : string :=
  match s with
  | EmptyString => EmptyString
  | String a s' =>
      match rstrip s' with
      | EmptyString => if Char.isspace a then EmptyString else String a EmptyString
      | r => String a r
      end
  end.

(** [s.strip()]. *)
Definition strip (s : string) : string := rstrip (lstrip s).

(** [s.lower()]. *)
Fixpoint lower (s : string) : string :=
  match s with
  | EmptyString => EmptyString
  | String a s' => String (Char.lower a) (lower s')
  end.

(** [s.split(sep)] for a one-character [sep]: never empty, one more piece
    than separators. *)
Fixpoint split (sep : ascii) (s : string) : list string :=
  match s with
  | EmptyString => [EmptyString]
  | String a s' =>
      if Ascii.eqb a sep then EmptyString :: split sep s'
      else match split sep s' with
           | p :: ps => String a p :: ps
           | [] => [String a EmptyString]
           end
  end.

Definition nonempty (s : string) : bool :=
  match s with
  | EmptyString => false
  | String _ _ => true
  end.

End Str.

(* ================================================================= *)
(** ** Values, dictionaries, exceptions *)

(** The values [typed_value] builds: [bool], [list], [dict] and [str]. *)
Inductive TypedValue : Type :=
| PyBool (b : bool)
| PyList (l : list TypedValue)
| PyDict (d : list (string * TypedValue))
| PyStr (s : string).

(** A [dict] keeps its keys in first-insertion order. *)
Definition dict (V : Type) : Type := list (string * V).

(** [d[k] = v] (and [d.update({k: v})]): overwrite in place or append. *)
Fixpoint dict_set {V : Type} (d : dict V) (k : string) (v : V) : dict V :=
  match d with
  | [] => [(k, v)]
  | (k', v') :: d' =>
      if String.eqb k' k then (k', v) :: d' else (k', v') :: dict_set d' k v
  end.

Definition dict_keys {V : Type} (d : dict V) : list string := map fst d.

Fixpoint dict_get {V : Type} (d : dict V) (k : string) : option V :=
  match d with
  | [] => None
  | (k', v') :: d' => if String.eqb k' k then Some v' else dict_get d' k
  end.

(** The exceptions of the module: those of [typed_value], and those that
    opening and reading the file can raise ([PermissionError] and the like
    are [OSError]s; a line that does not decode is a
    [UnicodeDecodeError]). *)
Inductive exn : Type :=
| ValueError
| AttributeError
| TypeError
| RecursionError
| OSError
| UnicodeDecodeError.

(** What evaluating an expression gives: a value, a raised exception, or
    nothing because the recursion budget of the model ran out. *)
Inductive outcome (A : Type) : Type :=
| Return (a : A)
| Raise (e : exn)
| NoFuel.

Arguments Return {A} a.
Arguments Raise {A} e.
Arguments NoFuel {A}.

Definition bind {A B : Type} (m : outcome A) (f : A -> outcome B) : outcome B :=
  match m with
  | Return a => f a
  | Raise e => Raise e
  | NoFuel => NoFuel
  end.

Notation "x <- m ;; k" := (bind m (fun x => k))
  (at level 61, m at next level, right associativity).

(** A list comprehension: elements are evaluated left to right and the
    first exception ends it. *)
Fixpoint mapM {A B : Type} (f : A -> outcome B) (l : list A) : outcome (list B) :=
  match l with
  | [] => Return []
  | x :: xs => y <- f x ;; ys <- mapM f xs ;; Return (y :: ys)
  end.

(** A [for] loop that threads an accumulator. *)
Fixpoint foldM {A S : Type} (f : S -> A -> outcome S) (s : S) (l : list A) : outcome S :=
  match l with
  | [] => Return s
  | x :: xs => s' <- f s x ;; foldM f s' xs
  end.

(* ================================================================= *)
(** ** Ansible's boolean tokens *)

(** Modelled from the spec: [BOOLEANS] and [boolean] are imported from
    [ansible.module_utils.parsing.convert_bool], which is not part of this
    repository.  The spec gives the token set: "y", "yes", "on", "1",
    "true", "t" for true and "n", "no", "off", "0", "false", "f" for false.
    Only the string members matter here: the module looks up a [str]. *)
Definition BOOLEANS_TRUE : list string := ["y"; "yes"; "on"; "1"; "true"; "t"].
(** Modelled from the spec: the tokens for false, from the same list. *)
Definition BOOLEANS_FALSE : list string := ["n"; "no"; "off"; "0"; "false"; "f"].
(** Modelled from the spec: [BOOLEANS] is the union of the two sets. *)
Definition BOOLEANS : list string := BOOLEANS_TRUE ++ BOOLEANS_FALSE.

Definition mem (s : string) (l : list string) : bool := existsb (String.eqb s) l.

(** Modelled from the spec: [boolean(value)] for a [str]: lower-case and
    trim, then look the token up; anything else is a [TypeError]. *)
Definition boolean (value : string) : outcome bool :=
  let normalized_value := Str.strip (Str.lower value) in
  if mem normalized_value BOOLEANS_TRUE then Return true
  else if mem normalized_value BOOLEANS_FALSE then Return false
  else Raise TypeError.

(* ================================================================= *)
(** ** typed_value *)

(** [x == s] for a [str] s: only an equal [str] compares equal. *)
Definition py_eq_str (s : string) (x : TypedValue) : bool :=
  match x with
  | PyStr t => String.eqb t s
  | _ => false
  end.

(** [c in value] for a one-character [c], on whatever [value] holds by
    then: substring test on a [str], element test on a [list], key test on
    a [dict]; a [bool] is not iterable. *)
Definition py_in (c : ascii) (value : TypedValue) : outcome bool :=
  match value with
  | PyStr s => Return (Str.contains c s)
  | PyList l => Return (existsb (py_eq_str (String c EmptyString)) l)
  | PyDict d => Return (existsb (String.eqb (String c EmptyString)) (dict_keys d))
  | PyBool _ => Raise TypeError
  end.

(** [value.split(sep)]: only a [str] has the method. *)
Definition py_split (sep : ascii) (value : TypedValue) : outcome (list string) :=
  match value with
  | PyStr s => Return (Str.split sep s)
  | _ => Raise AttributeError
  end.

(** The test of the first [if]: the same quote at both ends. *)
Definition quoted (value : string) : bool :=
  (Str.startswith Char.squote value && Str.endswith Char.squote value)
  || (Str.startswith Char.dquote value && Str.endswith Char.dquote value).

(** remove surrounding quotes *)
Definition unquote (value : string) : string :=
  if quoted value then Str.strip (Str.slice_1_m1 value) else value.

(** One pass of the [for item in value_items] loop. *)
Definition dict_item (self : string -> outcome TypedValue)
    (value : dict TypedValue) (item : TypedValue) : outcome (dict TypedValue) :=
  parts <- py_split Char.equals item ;;
  match map Str.strip parts with
  | [key_item; value_item] =>
      v <- self value_item ;;
      Return (dict_set value key_item v)
  | _ => Raise ValueError
  end.

(** handle list value.  The Python variable [value] is rebound to a list,
    a dict or a bool on the way, so from here on it is a [TypedValue]. *)
Definition handle_list (self : string -> outcome TypedValue)
    (value : string) : outcome TypedValue :=
  if Str.contains Char.comma value
  then l <- mapM (fun i => self (Str.strip i)) (Str.split Char.comma value) ;;
       Return (PyList l)
  else Return (PyStr value).

(** handle dict value.  The test is a plain [if], not an [elif]: it also
    runs on the list the step before may have built. *)
Definition handle_dict (self : string -> outcome TypedValue)
    (value : TypedValue) : outcome TypedValue :=
  has_semicolon <- py_in Char.semicolon value ;;
  has_equals <- (if has_semicolon then py_in Char.equals value else Return false) ;;
  if has_semicolon && has_equals
  then pieces <- py_split Char.semicolon value ;;
       value_items <- mapM (fun i => self (Str.strip i)) pieces ;;
       d <- foldM (dict_item self) [] value_items ;;
       Return (PyDict d)
  else Return value.

(** handle bool value *)
Definition handle_bool (value : TypedValue) : outcome TypedValue :=
  match value with
  | PyStr s =>
      if mem (Str.lower s) BOOLEANS
      then b <- boolean s ;; Return (PyBool b)
      else Return value
  | _ => Return value
  end.

Arguments handle_bool : simpl never.
Arguments mem : simpl never.

(** Everything after the quotes are gone. *)
Definition classify (self : string -> outcome TypedValue)
    (value : string) : outcome TypedValue :=
  value <- handle_list self value ;;
  value <- handle_dict self value ;;
  handle_bool value.

(** The body of [typed_value], with the recursive calls going to [self]. *)
Definition typed_value_body (self : string -> outcome TypedValue)
    (value : string) : outcome TypedValue :=
  classify self (unquote value).

(** The recursion is not structural: [n] bounds its depth. *)
Fixpoint typed_value_fuel (n : nat) (value : string) : outcome TypedValue :=
  match n with
  | O => NoFuel
  | S n' => typed_value_body (typed_value_fuel n') value
  end.

(** Every call is on a shorter string (shown below), so one more than the
    length is depth enough. *)
Definition typed_value (value : string) : outcome TypedValue :=
  typed_value_fuel (S (String.length value)) value.

(* ================================================================= *)
(** ** main *)

(** [[a-zA-Z_]] and [[a-zA-Z0-9_-]], the two classes of [key_pattern]. *)
Definition is_key_start (c : ascii) : bool :=
  Char.is_lower_az c || Char.is_upper_az c || Ascii.eqb c Char.underscore.

Definition is_key_char (c : ascii) : bool :=
  Char.is_lower_az c || Char.is_upper_az c || Char.is_digit c
  || Ascii.eqb c Char.underscore || Ascii.eqb c Char.hyphen.

(** [[a-zA-Z0-9_-]*$]: the greedy class, then [$], which in Python holds
    at the end of the string and also just before a final newline. *)
Fixpoint key_tail_match (s : string) : bool :=
  match s with
  | EmptyString => true
  | String c s' =>
      if is_key_char c then key_tail_match s'
      else Ascii.eqb c Char.newline && negb (Str.nonempty s')
  end.

(** [regex_key.match(s)], as a truth value. *)
Definition regex_key_match (s : string) : bool :=
  match s with
  | EmptyString => false
  | String c s' => is_key_start c && key_tail_match s'
  end.

(** [.*]: up to the first newline, which [.] does not match. *)
Fixpoint dot_star (s : string) : string :=
  match s with
  | EmptyString => EmptyString
  | String c s' => if Ascii.eqb c Char.newline then EmptyString else String c (dot_star s')
  end.

(** The rest of [regex_key_value] after the first character: the greedy
    class that ends the key, the [=] that must follow it, and the value. *)
Fixpoint key_tail_value (s : string) : option (string * string) :=
  match s with
  | EmptyString => None
  | String c s' =>
      if is_key_char c then
        match key_tail_value s' with
        | Some (k, v) => Some (String c k, v)
        | None => None
        end
      else if Ascii.eqb c Char.equals then Some (EmptyString, dot_star s')
      else None
  end.

(** [regex_key_value.match(line)]: the groups [key] and [value], or no
    match. *)
Definition regex_key_value_match (line : string) : option (string * string) :=
  match line with
  | EmptyString => None
  | String c s' =>
      if is_key_start c then
        match key_tail_value s' with
        | Some (k, v) => Some (String c k, v)
        | None => None
        end
      else None
  end.

(** [module.params] and [module.check_mode]. *)
Record Params : Type := {
  path : string;
  prefix : string;
  lower : bool;
  check_mode : bool
}.

(** The [result] dictionary: [changed], and [vars] once it is attached. *)
Record Result : Type := {
  changed : bool;
  vars : option (dict TypedValue)
}.

(** How a run ends: [module.exit_json], [module.fail_json], or an
    exception nobody catches. *)
Inductive Exit : Type :=
| exit_json (result : Result)
| fail_json (msg : string) (result : Result)
| uncaught (e : exn).

(** [result] holds a reference to [variables], not a copy: once
    [result["vars"]] is set, it shows every later entry too.  So the loop
    state is the dictionary and whether the reference is attached. *)
Definition result_of (variables : dict TypedValue) (attached : bool) : Result :=
  {| changed := false; vars := if attached then Some variables else None |}.

Definition msg_not_a_file (path : string) : string :=
  ("'" ++ path ++ "' does not exist or is not a file")%string.

Definition msg_invalid_prefix (prefix : string) : string :=
  ("'" ++ prefix ++ "' is not a valid prefix it must starts with a letter or"
   ++ " underscore character, and contains only letters, numbers and"
   ++ " underscores")%string.

Definition msg_invalid_key (key : string) : string :=
  ("'" ++ key ++ "' is not a valid variable name it must starts with"
   ++ " a letter or underscore character, and contains only"
   ++ " letters, numbers and underscores")%string.

(** merge prefix + key, lower key *)
Definition compose_key (p : Params) (key : string) : string :=
  let key := if Str.nonempty (prefix p) then (prefix p ++ key)%string else key in
  if lower p then Str.lower key else key.

(** [for line in file]. *)
Fixpoint read_lines (p : Params) (lines : list string)
    (variables : dict TypedValue) (attached : bool) : Exit :=
  match lines with
  | [] => exit_json (result_of variables attached)
  | line :: rest =>
      match regex_key_value_match line with
      | None =>
          (* skip lines that are not assignation *)
          read_lines p rest variables attached
      | Some (k, v) =>
          (* get key and value *)
          let key := Str.strip k in
          let value := Str.strip v in
          let key := compose_key p key in
          (* check key validity *)
          if negb (regex_key_match key)
          then fail_json (msg_invalid_key key) (result_of variables attached)
          else
            (* parse value and apply correct type operations *)
            match typed_value value with
            | Return tv =>
                read_lines p rest (dict_set variables key tv)
                           (attached || negb (check_mode p))
            | Raise e => uncaught e
            | NoFuel => uncaught RecursionError
            end
      end
  end.

(** A regular file, as [open(path)] and [for line in file] see it:
    either [open] raises, or the iteration yields [lines] and then ends,
    or raises [broken] in place of the end (a line that does not
    decode, a read error). *)
Inductive File : Type :=
| Unreadable (e : exn)
| Readable (lines : list string) (broken : option exn).

(** [os.path.isfile] and [open]: the regular files, by path. *)
Definition FileSystem : Type := string -> option File.

(** The end of [for line in file]: when the iteration raises instead of
    ending, the exception takes the place of the normal end of the loop.
    A loop that [fail_json] or an exception ended earlier never gets
    there. *)
Definition end_of_iteration (broken : option exn) (e : Exit) : Exit :=
  match broken, e with
  | Some x, exit_json _ => uncaught x
  | _, _ => e
  end.

(** [with open(path) as file: for line in file: ...] *)
Definition read_file (p : Params) (file : File) : Exit :=
  match file with
  | Unreadable e => uncaught e
  | Readable lines broken => end_of_iteration broken (read_lines p lines [] false)
  end.

(** [main], on a file system. *)
Definition main (fs : FileSystem) (p : Params) : Exit :=
  match fs (path p) with
  | None => fail_json (msg_not_a_file (path p)) (result_of [] false)
  | Some file =>
      if Str.nonempty (prefix p) && negb (regex_key_match (prefix p))
      then fail_json (msg_invalid_prefix (prefix p)) (result_of [] false)
      else read_file p file
  end.

(** A file system with one regular file, which reads without error. *)
Definition one_file (name : string) (lines : list string) : FileSystem :=
  fun q => if String.eqb q name then Some (Readable lines None) else None.

Definition nl (s : string) : string := (s ++ String Char.newline EmptyString)%string.

(** A character that neither [strip] nor the quote removal can take away:
    not white space, not a quote. *)
Definition plain (c : ascii) : bool :=
  negb (Char.isspace c) && negb (Ascii.eqb c Char.squote) && negb (Ascii.eqb c Char.dquote).

(** What [typed_value] makes of an unquoted string that has no list and no
    mapping in it: a boolean for a token of [BOOLEANS], else the string. *)
Definition leaf (value : string) : TypedValue :=
  if mem (Str.lower value) BOOLEANS
  then PyBool (mem (Str.lower value) BOOLEANS_TRUE)
  else PyStr value.

(** [self], but refusing every argument that is not strictly shorter than
    [value]. *)
Definition shorter_only (value : string) (self : string -> outcome TypedValue)
    : string -> outcome TypedValue :=
  fun t => if String.length t <? String.length value then self t else NoFuel.

(** Digits, with an optional sign and decimal point. *)
Definition numeric_char (c : ascii) : bool :=
  Char.is_digit c || Ascii.eqb c "."%char || Ascii.eqb c "-"%char || Ascii.eqb c "+"%char.

Fixpoint all_chars (f : ascii -> bool) (s : string) : bool :=
  match s with
  | EmptyString => true
  | String c s' => f c && all_chars f s'
  end.

Definition numeric_string (s : string) : bool := Str.nonempty s && all_chars numeric_char s.

(** Building a [dict] from its items, in order. *)
Definition dict_of_items {V : Type} (kvs : list (string * V)) : dict V :=
  fold_left (fun d kv => dict_set d (fst kv) (snd kv)) kvs [].

(** Characters, and occurrences of [c], summed over the pieces of a split. *)
Definition total_length (l : list string) : nat :=
  fold_right (fun p n => String.length p + n) 0 l.

Definition total_count (c : ascii) (l : list string) : nat :=
  fold_right (fun p n => Str.count c p + n) 0 l.

(** Two candidates for the recursive call that give the same answer, and
    an answer at all, on every string shorter than [value]. *)
Definition agree_below (value : string) (self1 self2 : string -> outcome TypedValue) : Prop :=
  forall t, String.length t < String.length value ->
            self1 t = self2 t /\ self1 t <> NoFuel.

(** A candidate that types every short string without list or mapping
    separators as [typed_value] does. *)
Definition types_leaves_below (value : string) (self : string -> outcome TypedValue) : Prop :=
  forall t, String.length t < String.length value ->
            Str.contains Char.comma t = false ->
            Str.contains Char.semicolon t = false ->
            self t = Return (leaf (unquote t)).

(** What the mapping pieces look like to the dict loop. *)
Definition mapping_items (pieces : list string) : list TypedValue :=
  map (fun p => leaf (unquote (Str.strip p))) pieces.

(** A key as [regex_key_value] captures it: a first character of the
    start class, then characters of the key class. *)
Definition key_shaped (k : string) : bool :=
  match k with
  | EmptyString => false
  | String c body => is_key_start c && all_chars is_key_char body
  end.

(** Sample input: a configuration file and the parameters of a task. *)
Definition dq (s : string) : string :=
  String Char.dquote (s ++ String Char.dquote EmptyString).

Definition sample_file : list string :=
  [nl "# comment"; nl "FOO=1,2,3"; nl "BAR=a=1;b=2"; nl "BAZ=yes";
   nl ("QUX=" ++ dq "hello world")].

Definition sample_params : Params :=
  {| path := "/root/my_conf.sh"; prefix := ""; lower := false; check_mode := false |}.

Definition sample_fs : FileSystem :=
  one_file "/root/my_conf.sh" sample_file.

(** A fact about one character, checked on each of the 256. *)
Ltac all_ascii c := destruct c as [[] [] [] [] [] [] [] []]; reflexivity.

(** A line the loop does not skip. *)
Definition is_assignment (line : string) : bool :=
  match regex_key_value_match line with
  | Some _ => true
  | None => false
  end.

(** What one pass of the line loop stores for [line]: the composed key,
    which passed the key check, and the typed value. *)
Definition entry_of (p : Params) (line : string) (kv : string * TypedValue) : Prop :=
  exists k v,
    regex_key_value_match line = Some (k, v)
    /\ fst kv = compose_key p (Str.strip k)
    /\ regex_key_match (fst kv) = true
    /\ typed_value (Str.strip v) = Return (snd kv).

(** Storing items into a dictionary, in order. *)
Definition dict_update {V : Type} (d : dict V) (kvs : list (string * V)) : dict V :=
  fold_left (fun d kv => dict_set d (fst kv) (snd kv)) kvs d.

Definition some_items {A : Type} (l : list A) : bool :=
  match l with
  | [] => false
  | _ :: _ => true
  end.

(** The same task run with [--check], or without. *)
Definition with_check_mode (b : bool) (p : Params) : Params :=
  {| path := path p; prefix := prefix p; lower := lower p; check_mode := b |}.

(** The same end of a run, with [vars] taken out of the result. *)
Definition drop_vars (e : Exit) : Exit :=
  match e with
  | exit_json r => exit_json {| changed := changed r; vars := None |}
  | fail_json msg r => fail_json msg {| changed := changed r; vars := None |}
  | uncaught x => uncaught x
  end.

(** A bool or a string. *)
Definition scalar (v : TypedValue) : bool :=
  match v with
  | PyBool _ | PyStr _ => true
  | _ => false
  end.

(** A scalar, or a dict of scalars. *)
Definition flat (v : TypedValue) : bool :=
  match v with
  | PyBool _ | PyStr _ => true
  | PyDict d => forallb scalar (map snd d)
  | PyList _ => false
  end.

(** A scalar, a dict of scalars, or a list of those. *)
Definition well_nested (v : TypedValue) : bool :=
  match v with
  | PyList l => forallb flat l
  | _ => flat v
  end.

(** The file system [fs] with the lines that are no assignment removed
    from every file. *)
Definition assignments_only (fs : FileSystem) : FileSystem :=
  fun q =>
    match fs q with
    | Some (Readable lines broken) => Some (Readable (filter is_assignment lines) broken)
    | other => other
    end.

(** White space only. *)
Definition blank (s : string) : bool := all_chars Char.isspace s.

Definition starts_with_space (s : string) : bool :=
  match s with
  | EmptyString => false
  | String a _ => Char.isspace a
  end.

Fixpoint ends_with_space (s : string) : bool :=
  match s with
  | EmptyString => false
  | String a EmptyString => Char.isspace a
  | String _ s' => ends_with_space s'
  end.

(** No white space at either end: nothing for [strip] to remove. *)
Definition trimmed (s : string) : bool :=
  negb (starts_with_space s) && negb (ends_with_space s).

(** The name a line has in front of its first [=], valid or not. *)
Definition name_of (line : string) : string :=
  match Str.split Char.equals line with
  | name :: _ => name
  | [] => EmptyString
  end.

(* ================================================================= *)
(** * Facts about the string methods *)

Module StrFacts.
Import Str.

Lemma contains_count c s : contains c s = (0 <? count c s).
Proof.
  induction s as [|a s IH]; simpl; [reflexivity|].
  destruct (Ascii.eqb a c); simpl; [reflexivity | exact IH].
Qed.

Lemma contains_false_count c s : contains c s = false <-> count c s = 0.
Proof.
  rewrite contains_count. rewrite Nat.ltb_ge. lia.
Qed.

Lemma contains_true_count c s : contains c s = true <-> 0 < count c s.
Proof.
  rewrite contains_count. apply Nat.ltb_lt.
Qed.

Lemma count_le_length c s : count c s <= String.length s.
Proof.
  induction s as [|a s IH]; simpl; [lia|].
  destruct (Ascii.eqb a c); lia.
Qed.

Lemma count_append c s t : count c (s ++ t) = count c s + count c t.
Proof.
  induction s as [|a s IH]; simpl; [reflexivity|]. rewrite IH. lia.
Qed.

(** ** split *)

Lemma split_not_nil sep s : split sep s <> [].
Proof.
  destruct s as [|a s]; simpl; [discriminate|].
  destruct (Ascii.eqb a sep); [discriminate|].
  destruct (split sep s); discriminate.
Qed.

Lemma split_length sep s : List.length (split sep s) = count sep s + 1.
Proof.
  induction s as [|a s IH]; simpl; [reflexivity|].
  destruct (Ascii.eqb a sep); simpl; [now rewrite IH|].
  pose proof (split_not_nil sep s) as Hn.
  destruct (split sep s) as [|p ps]; [contradiction|]. exact IH.
Qed.

Lemma split_total_length sep s :
  total_length (split sep s) + count sep s = String.length s.
Proof.
  induction s as [|a s IH]; simpl; [reflexivity|].
  destruct (Ascii.eqb a sep); simpl; [lia|].
  pose proof (split_not_nil sep s) as Hn.
  destruct (split sep s) as [|p ps]; [contradiction|]. simpl in *. lia.
Qed.

Lemma In_total_length p l : In p l -> String.length p <= total_length l.
Proof.
  induction l as [|x l IH]; simpl; [contradiction|].
  intros [->|H]; [lia|]. apply IH in H. lia.
Qed.

Lemma split_piece_length sep s p :
  In p (split sep s) -> String.length p + count sep s <= String.length s.
Proof.
  intros H. apply In_total_length in H.
  pose proof (split_total_length sep s). lia.
Qed.

Lemma split_total_count sep c s :
  total_count c (split sep s) + (if Ascii.eqb sep c then count sep s else 0) = count c s.
Proof.
  induction s as [|a s IH]; simpl.
  - destruct (Ascii.eqb sep c); reflexivity.
  - destruct (Ascii.eqb a sep) eqn:Ea; simpl.
    + apply Ascii.eqb_eq in Ea. subst a.
      destruct (Ascii.eqb sep c); lia.
    + pose proof (split_not_nil sep s) as Hn.
      destruct (split sep s) as [|p ps]; [contradiction|]. simpl in *.
      destruct (Ascii.eqb sep c) eqn:Es.
      * apply Ascii.eqb_eq in Es. subst c. rewrite Ea. lia.
      * lia.
Qed.

Lemma In_total_count c p l : In p l -> count c p <= total_count c l.
Proof.
  induction l as [|x l IH]; simpl; [contradiction|].
  intros [->|H]; [lia|]. apply IH in H. lia.
Qed.

Lemma split_piece_count sep c s p : In p (split sep s) -> count c p <= count c s.
Proof.
  intros H. apply (In_total_count c) in H.
  pose proof (split_total_count sep c s). lia.
Qed.

Lemma split_piece_no_sep sep s p : In p (split sep s) -> count sep p = 0.
Proof.
  intros H. apply (In_total_count sep) in H.
  pose proof (split_total_count sep sep s) as E.
  rewrite Ascii.eqb_refl in E. lia.
Qed.

(** ** strip *)

Lemma lstrip_length s : String.length (lstrip s) <= String.length s.
Proof.
  induction s as [|a s IH]; simpl; [lia|].
  destruct (Char.isspace a); simpl; lia.
Qed.

Lemma rstrip_length s : String.length (rstrip s) <= String.length s.
Proof.
  induction s as [|a s IH]; simpl; [lia|].
  destruct (rstrip s); [destruct (Char.isspace a)|]; simpl in *; lia.
Qed.

Lemma strip_length s : String.length (strip s) <= String.length s.
Proof.
  unfold strip. pose proof (rstrip_length (lstrip s)). pose proof (lstrip_length s). lia.
Qed.

Lemma count_space_char c a :
  Char.isspace c = false -> Char.isspace a = true -> Ascii.eqb a c = false.
Proof.
  intros Hc Ha. destruct (Ascii.eqb a c) eqn:E; [|reflexivity].
  apply Ascii.eqb_eq in E. congruence.
Qed.

Lemma lstrip_count c s : Char.isspace c = false -> count c (lstrip s) = count c s.
Proof.
  intros Hc. induction s as [|a s IH]; simpl; [reflexivity|].
  destruct (Char.isspace a) eqn:Ha; simpl; [|reflexivity].
  rewrite (count_space_char c a Hc Ha). exact IH.
Qed.

Lemma rstrip_count c s : Char.isspace c = false -> count c (rstrip s) = count c s.
Proof.
  intros Hc. induction s as [|a s IH]; simpl; [reflexivity|].
  destruct (rstrip s) as [|b r] eqn:Er.
  - destruct (Char.isspace a) eqn:Ha; simpl in *.
    + rewrite (count_space_char c a Hc Ha). exact IH.
    + rewrite <- IH. reflexivity.
  - simpl in *. rewrite IH. reflexivity.
Qed.

Lemma strip_count c s : Char.isspace c = false -> count c (strip s) = count c s.
Proof.
  intros Hc. unfold strip. rewrite rstrip_count, lstrip_count; auto.
Qed.

Lemma strip_contains c s : Char.isspace c = false -> contains c (strip s) = contains c s.
Proof.
  intros Hc. rewrite !contains_count, strip_count; auto.
Qed.

Lemma rstrip_all_chars f s :
  (forall c, f c = true -> Char.isspace c = false) ->
  all_chars f s = true -> rstrip s = s.
Proof.
  intros Hf. induction s as [|a s IH]; simpl; [reflexivity|].
  intros H. apply andb_true_iff in H as [Ha Hs].
  rewrite (IH Hs). destruct s; [rewrite (Hf a Ha)|]; reflexivity.
Qed.

Lemma strip_all_chars f s :
  (forall c, f c = true -> Char.isspace c = false) ->
  all_chars f s = true -> strip s = s.
Proof.
  intros Hf H. unfold strip.
  assert (lstrip s = s) as ->.
  { destruct s as [|a s]; simpl in *; [reflexivity|].
    apply andb_true_iff in H as [Ha _]. now rewrite (Hf a Ha). }
  now apply (rstrip_all_chars f).
Qed.

(** ** The slice that drops the quotes *)

Lemma drop_last_length s : String.length (drop_last s) <= String.length s.
Proof.
  induction s as [|a s IH]; simpl; [lia|].
  destruct s; simpl in *; lia.
Qed.

Lemma drop_last_count c s :
  count c s = count c (drop_last s) + (if endswith c s then 1 else 0).
Proof.
  induction s as [|a s IH]; simpl; [reflexivity|].
  destruct s as [|b s]; simpl in *.
  - destruct (Ascii.eqb a c); reflexivity.
  - lia.
Qed.

Lemma drop_last_snoc s c : drop_last (s ++ String c EmptyString) = s.
Proof.
  induction s as [|a s IH]; simpl; [reflexivity|].
  rewrite IH. destruct s; reflexivity.
Qed.

Lemma endswith_snoc s c q : endswith q (s ++ String c EmptyString) = Ascii.eqb c q.
Proof.
  induction s as [|a s IH]; simpl; [reflexivity|].
  rewrite IH. destruct s; reflexivity.
Qed.

Lemma endswith_unique a b s : endswith a s = true -> endswith b s = true -> a = b.
Proof.
  induction s as [|x s IH]; simpl; [discriminate|].
  destruct s as [|y s].
  - intros Ha Hb. apply Ascii.eqb_eq in Ha, Hb. congruence.
  - exact IH.
Qed.

Lemma slice_length s : String.length (slice_1_m1 s) <= String.length s.
Proof.
  destruct s as [|a s]; simpl; [lia|]. pose proof (drop_last_length s). lia.
Qed.

Lemma slice_count q c s :
  startswith q s = true -> endswith q s = true -> Ascii.eqb c q = false ->
  count c (slice_1_m1 s) = count c s.
Proof.
  intros Hs He Hc. destruct s as [|a s]; simpl in *; [reflexivity|].
  apply Ascii.eqb_eq in Hs. subst a.
  assert (Ascii.eqb q c = false) as -> by (rewrite Ascii.eqb_sym; exact Hc).
  simpl. destruct s as [|b s]; [reflexivity|].
  rewrite (drop_last_count c (String b s)).
  destruct (endswith c (String b s)) eqn:Ec; [|lia].
  assert (c = q) by (eapply endswith_unique; eauto). subst c.
  rewrite Ascii.eqb_refl in Hc. discriminate.
Qed.

(** ** What strip removes *)

Lemma lstrip_blank_append l s : blank l = true -> lstrip (l ++ s) = lstrip s.
Proof.
  unfold blank. induction l as [|a l IH]; simpl; [reflexivity|].
  intros H. apply andb_true_iff in H as [Ha Hl]. rewrite Ha. auto.
Qed.

Lemma lstrip_no_space s : starts_with_space s = false -> lstrip s = s.
Proof.
  destruct s as [|a s]; simpl; [reflexivity|]. intros ->. reflexivity.
Qed.

Lemma rstrip_blank r : blank r = true -> rstrip r = EmptyString.
Proof.
  unfold blank. induction r as [|a r IH]; simpl; [reflexivity|].
  intros H. apply andb_true_iff in H as [Ha Hr]. now rewrite (IH Hr), Ha.
Qed.

Lemma rstrip_append_blank t r :
  ends_with_space t = false -> blank r = true -> rstrip (t ++ r) = t.
Proof.
  intros Ht Hr. induction t as [|a t IH]; simpl.
  - now apply rstrip_blank.
  - destruct t as [|b t].
    + simpl in *. rewrite (rstrip_blank r Hr). now rewrite Ht.
    + rewrite IH by exact Ht. reflexivity.
Qed.

(** [strip] takes the white space off both ends and nothing else. *)
Lemma strip_decompose l t r :
  blank l = true -> blank r = true -> trimmed t = true ->
  strip (l ++ t ++ r) = t.
Proof.
  intros Hl Hr Ht. unfold trimmed in Ht.
  apply andb_true_iff in Ht as [H1 H2]. apply negb_true_iff in H1, H2.
  unfold strip. rewrite (lstrip_blank_append l _ Hl).
  destruct t as [|a t].
  - simpl. assert (lstrip r = EmptyString) as ->; [|reflexivity].
    clear -Hr. unfold blank in Hr. induction r as [|a r IH]; simpl; [reflexivity|].
    simpl in Hr. apply andb_true_iff in Hr as [Ha Hr]. rewrite Ha. auto.
  - rewrite lstrip_no_space by exact H1. now apply rstrip_append_blank.
Qed.

End StrFacts.

(* ================================================================= *)
(** * Facts about quotes, tokens and the monad *)

Section Unquote.
Import Str StrFacts.

Lemma plain_not_space c : plain c = true -> Char.isspace c = false.
Proof.
  unfold plain. destruct (Char.isspace c); simpl; [discriminate | reflexivity].
Qed.

Lemma unquote_length s : String.length (unquote s) <= String.length s.
Proof.
  unfold unquote. destruct (quoted s); [|lia].
  pose proof (strip_length (slice_1_m1 s)). pose proof (slice_length s). lia.
Qed.

Lemma unquote_count c s : plain c = true -> count c (unquote s) = count c s.
Proof.
  intros Hp. unfold unquote. destruct (quoted s) eqn:Hq; [|reflexivity].
  rewrite strip_count by now apply plain_not_space.
  unfold plain in Hp. apply andb_true_iff in Hp as [Hp Hd].
  apply andb_true_iff in Hp as [_ Hs].
  apply negb_true_iff in Hs, Hd.
  unfold quoted in Hq. apply orb_true_iff in Hq as [Hq|Hq];
    apply andb_true_iff in Hq as [H1 H2];
    eapply slice_count; eauto.
Qed.

Lemma unquote_contains c s : plain c = true -> contains c (unquote s) = contains c s.
Proof.
  intros Hp. rewrite !contains_count, unquote_count; auto.
Qed.

Lemma unquote_quoted q inner :
  q = Char.squote \/ q = Char.dquote ->
  unquote (String q (inner ++ String q EmptyString)) = strip inner.
Proof.
  intros Hq. unfold unquote, quoted.
  assert (startswith q (String q (inner ++ String q EmptyString)) = true) as Hs
    by (simpl; apply Ascii.eqb_refl).
  assert (endswith q (String q (inner ++ String q EmptyString)) = true) as He
    by (change (String q (inner ++ String q EmptyString))
          with ((String q inner) ++ String q EmptyString)%string;
        rewrite endswith_snoc; apply Ascii.eqb_refl).
  assert ((startswith Char.squote (String q (inner ++ String q EmptyString))
           && endswith Char.squote (String q (inner ++ String q EmptyString)))
          || (startswith Char.dquote (String q (inner ++ String q EmptyString))
              && endswith Char.dquote (String q (inner ++ String q EmptyString))) = true) as ->.
  { destruct Hq as [->| ->]; rewrite Hs, He; simpl; auto using orb_true_r. }
  simpl. now rewrite drop_last_snoc.
Qed.

End Unquote.

Section Tokens.
Import Str StrFacts.

Lemma mem_In t l : mem t l = true <-> In t l.
Proof.
  unfold mem. rewrite existsb_exists. split.
  - intros (x & Hx & E). apply String.eqb_eq in E. now subst.
  - intros H. exists t. split; [assumption | apply String.eqb_refl].
Qed.

Lemma code_ascii_of_nat n : n < 256 -> Char.code (ascii_of_nat n) = n.
Proof. apply nat_ascii_embedding. Qed.

Lemma code_inj a b : Char.code a = Char.code b -> a = b.
Proof.
  unfold Char.code. intros H.
  rewrite <- (ascii_nat_embedding a), <- (ascii_nat_embedding b). now rewrite H.
Qed.

(** [lower] neither makes nor removes a character that sorts before the
    capitals: the separators, the quotes, the digits. *)
Lemma lower_char_low a c :
  Char.code c < 65 -> Ascii.eqb (Char.lower a) c = Ascii.eqb a c.
Proof.
  intros Hc. unfold Char.lower.
  destruct (Char.between 65 90 (Char.code a)
            || Char.between 192 222 (Char.code a) && negb (Char.code a =? 215)) eqn:E;
    [|reflexivity].
  assert (65 <= Char.code a <= 222) as Ha.
  { unfold Char.between in E.
    apply orb_true_iff in E as [E|E].
    - apply andb_true_iff in E as [E1 E2].
      apply Nat.leb_le in E1, E2. lia.
    - apply andb_true_iff in E as [E _].
      apply andb_true_iff in E as [E1 E2].
      apply Nat.leb_le in E1, E2. lia. }
  assert (Ascii.eqb a c = false) as ->.
  { apply Ascii.eqb_neq. intros ->. lia. }
  apply Ascii.eqb_neq. intros E'.
  apply (f_equal Char.code) in E'. rewrite code_ascii_of_nat in E' by lia. lia.
Qed.

Lemma lower_count c s : Char.code c < 65 -> count c (lower s) = count c s.
Proof.
  intros Hc. induction s as [|a s IH]; simpl; [reflexivity|].
  now rewrite lower_char_low, IH.
Qed.

Lemma Str_lower_contains_low c s : Char.code c < 65 -> contains c (lower s) = contains c s.
Proof.
  intros Hc. rewrite !contains_count, lower_count; auto.
Qed.

Lemma lower_startswith c s : Char.code c < 65 -> startswith c (lower s) = startswith c s.
Proof.
  intros Hc. destruct s as [|a s]; simpl; [reflexivity|]. now apply lower_char_low.
Qed.

(** A token of [BOOLEANS] has no separator and no quote in it. *)
Lemma token_shape t :
  mem t BOOLEANS = true ->
  contains Char.comma t = false /\ contains Char.semicolon t = false
  /\ contains Char.equals t = false
  /\ startswith Char.squote t = false /\ startswith Char.dquote t = false.
Proof.
  intros H. apply mem_In in H. simpl in H.
  repeat (destruct H as [<-|H]; [repeat split; reflexivity|]). contradiction.
Qed.

Lemma boolean_token u :
  mem (lower u) BOOLEANS = true ->
  boolean u = Return (mem (lower u) BOOLEANS_TRUE).
Proof.
  unfold boolean. generalize (lower u). intros t H.
  apply mem_In in H. simpl in H.
  repeat (destruct H as [<-|H]; [reflexivity|]). contradiction.
Qed.

Lemma handle_bool_str u : handle_bool (PyStr u) = Return (leaf u).
Proof.
  unfold handle_bool, leaf. destruct (mem (lower u) BOOLEANS) eqn:E; [|reflexivity].
  now rewrite boolean_token.
Qed.

(** A string with an [=] in it is no boolean token. *)
Lemma leaf_with_equals u : contains Char.equals u = true -> leaf u = PyStr u.
Proof.
  intros H. unfold leaf. destruct (mem (lower u) BOOLEANS) eqn:E; [|reflexivity].
  apply token_shape in E as (_ & _ & E & _).
  rewrite Str_lower_contains_low in E by (vm_compute; lia). congruence.
Qed.

Lemma token_not_quoted u : mem (lower u) BOOLEANS = true -> unquote u = u.
Proof.
  intros H. apply token_shape in H as (_ & _ & _ & H1 & H2).
  rewrite lower_startswith in H1, H2 by (vm_compute; lia).
  unfold unquote, quoted. now rewrite H1, H2.
Qed.

Lemma numeric_char_lower c : numeric_char c = true -> Char.lower c = c.
Proof.
  destruct c as [[] [] [] [] [] [] [] []]; intros H; try reflexivity; discriminate H.
Qed.

Lemma numeric_lower s : all_chars numeric_char s = true -> lower s = s.
Proof.
  induction s as [|a s IH]; simpl; [reflexivity|].
  intros H. apply andb_true_iff in H as [H1 H2].
  now rewrite (numeric_char_lower a H1), IH.
Qed.

Lemma all_chars_contains f c s :
  f c = false -> all_chars f s = true -> contains c s = false.
Proof.
  intros Hc. induction s as [|a s IH]; simpl; [reflexivity|].
  intros H. apply andb_true_iff in H as [H1 H2]. rewrite (IH H2).
  destruct (Ascii.eqb a c) eqn:E; [|reflexivity].
  apply Ascii.eqb_eq in E. congruence.
Qed.

(** A numeric string is its own lower case, has no quotes around it and
    no separator in it. *)
Lemma numeric_string_shape s :
  numeric_string s = true ->
  lower s = s /\ unquote s = s
  /\ contains Char.comma s = false /\ contains Char.semicolon s = false.
Proof.
  unfold numeric_string. intros H. apply andb_true_iff in H as [_ H].
  repeat split.
  - now apply numeric_lower.
  - unfold unquote, quoted. destruct s as [|a s]; [reflexivity|]. simpl in *.
    apply andb_true_iff in H as [H _].
    assert (Ascii.eqb a Char.squote = false) as ->
      by (destruct (Ascii.eqb a Char.squote) eqn:E; [|reflexivity];
          apply Ascii.eqb_eq in E; subst a; discriminate H).
    assert (Ascii.eqb a Char.dquote = false) as ->
      by (destruct (Ascii.eqb a Char.dquote) eqn:E; [|reflexivity];
          apply Ascii.eqb_eq in E; subst a; discriminate H).
    reflexivity.
  - now apply (all_chars_contains numeric_char).
  - now apply (all_chars_contains numeric_char).
Qed.

(** The only numeric strings among the tokens are the two digits. *)
Lemma numeric_token s :
  numeric_string s = true -> mem s BOOLEANS = true -> s = "0" \/ s = "1".
Proof.
  intros Hn H. apply mem_In in H. simpl in H.
  repeat (destruct H as [<-|H]; [auto; discriminate Hn|]). contradiction.
Qed.

End Tokens.

Section Monad.
Context {A B : Type}.

Lemma mapM_agree (f g : A -> outcome B) l :
  (forall x, In x l -> f x = g x /\ f x <> NoFuel) ->
  mapM f l = mapM g l /\ mapM f l <> NoFuel.
Proof.
  induction l as [|x l IH]; intros H; simpl; [split; [reflexivity | discriminate]|].
  destruct (H x (or_introl eq_refl)) as [E N]. rewrite <- E.
  destruct (f x) as [y|e|]; simpl; [|split; [reflexivity | discriminate] | contradiction].
  destruct IH as [E' N']; [intros; apply H; now right|]. rewrite <- E'.
  destruct (mapM f l); simpl; split; try reflexivity; try discriminate; contradiction.
Qed.

Lemma mapM_pure (f : A -> outcome B) (g : A -> B) l :
  (forall x, In x l -> f x = Return (g x)) -> mapM f l = Return (map g l).
Proof.
  induction l as [|x l IH]; intros H; simpl; [reflexivity|].
  rewrite (H x (or_introl eq_refl)). simpl.
  rewrite IH by (intros; apply H; now right). reflexivity.
Qed.

Lemma mapM_Forall2 (f : A -> outcome B) l ys :
  Forall2 (fun x y => f x = Return y) l ys -> mapM f l = Return ys.
Proof.
  induction 1 as [|x y l ys Hx _ IH]; simpl; [reflexivity|].
  now rewrite Hx, IH.
Qed.

Lemma mapM_raise (f : A -> outcome B) pre x post ys e :
  Forall2 (fun a y => f a = Return y) pre ys -> f x = Raise e ->
  mapM f (pre ++ x :: post) = Raise e.
Proof.
  intros HF Hx. induction HF as [|a y pre ys Ha _ IH]; simpl.
  - now rewrite Hx.
  - now rewrite Ha, IH.
Qed.

Lemma foldM_agree {S : Type} (f g : S -> A -> outcome S) l :
  (forall acc x, In x l -> f acc x = g acc x /\ f acc x <> NoFuel) ->
  forall s, foldM f s l = foldM g s l /\ foldM f s l <> NoFuel.
Proof.
  induction l as [|x l IH]; intros H s; simpl; [split; [reflexivity | discriminate]|].
  destruct (H s x (or_introl eq_refl)) as [E N]. rewrite <- E.
  destruct (f s x) as [s'|e|]; simpl; [|split; [reflexivity | discriminate] | contradiction].
  apply IH. intros; apply H; now right.
Qed.

End Monad.

(* ================================================================= *)
(** * The recursion of typed_value *)

Section Recursion.
Import Str StrFacts.

Lemma plain_comma : plain Char.comma = true.
Proof. reflexivity. Qed.

Lemma plain_semicolon : plain Char.semicolon = true.
Proof. reflexivity. Qed.

Lemma plain_equals : plain Char.equals = true.
Proof. reflexivity. Qed.

(** On a list the dict step either does nothing or fails on [split]. *)
Lemma handle_dict_list self l :
  handle_dict self (PyList l) =
  if existsb (py_eq_str (String Char.semicolon "")) l && existsb (py_eq_str (String Char.equals "")) l
  then Raise AttributeError
  else Return (PyList l).
Proof.
  unfold handle_dict. simpl.
  destruct (existsb (py_eq_str (String Char.semicolon "")) l); simpl; [|reflexivity].
  destruct (existsb (py_eq_str (String Char.equals "")) l); reflexivity.
Qed.

(** Without a comma, and without a semicolon or without an equals sign,
    no recursive call is made at all. *)
Lemma classify_leaf self u :
  contains Char.comma u = false ->
  contains Char.semicolon u && contains Char.equals u = false ->
  classify self u = Return (leaf u).
Proof.
  intros Hc Hm. unfold classify, handle_list. rewrite Hc. simpl.
  unfold handle_dict. simpl.
  destruct (contains Char.semicolon u); simpl in *.
  - rewrite Hm. simpl. apply handle_bool_str.
  - apply handle_bool_str.
Qed.

Lemma body_leaf self t :
  contains Char.comma t = false ->
  contains Char.semicolon t = false ->
  typed_value_body self t = Return (leaf (unquote t)).
Proof.
  intros Hc Hs. unfold typed_value_body. apply classify_leaf.
  - now rewrite unquote_contains by apply plain_comma.
  - rewrite unquote_contains by apply plain_semicolon. now rewrite Hs.
Qed.

(** A piece of a split at a separator that does occur is shorter, and so
    is what [strip] leaves of it. *)
Lemma stripped_piece_shorter sep u p :
  contains sep u = true -> In p (split sep u) ->
  String.length (strip p) < String.length u.
Proof.
  intros Hc Hp. apply contains_true_count in Hc.
  apply split_piece_length in Hp. pose proof (strip_length p). lia.
Qed.

Lemma stripped_piece_contains sep c u p :
  Char.isspace c = false -> contains c u = false -> In p (split sep u) ->
  contains c (strip p) = false.
Proof.
  intros Hs Hc Hp. rewrite strip_contains by assumption.
  apply contains_false_count. apply contains_false_count in Hc.
  apply (split_piece_count sep c) in Hp. lia.
Qed.

Lemma stripped_piece_no_sep sep u p :
  Char.isspace sep = false -> In p (split sep u) -> contains sep (strip p) = false.
Proof.
  intros Hs Hp. rewrite strip_contains by assumption.
  apply contains_false_count. now apply split_piece_no_sep in Hp.
Qed.

(** The value part of an item is no longer than the item. *)
Lemma value_item_length w k vi :
  map strip (split Char.equals w) = [k; vi] -> String.length vi <= String.length w.
Proof.
  intros E.
  assert (In vi (map strip (split Char.equals w))) as H by (rewrite E; simpl; auto).
  apply in_map_iff in H as (x & <- & Hx).
  apply split_piece_length in Hx. pose proof (strip_length x). lia.
Qed.

(** One pass of the dict loop calls [self] on a string no longer than the
    item, so two candidates that agree below [value] give the same pass. *)
Lemma dict_item_agree value self1 self2 acc item :
  agree_below value self1 self2 ->
  (forall w, item = PyStr w -> String.length w < String.length value) ->
  dict_item self1 acc item = dict_item self2 acc item
  /\ dict_item self1 acc item <> NoFuel.
Proof.
  intros Ha Hw. unfold dict_item.
  destruct item as [b|l|d|w]; simpl; try (split; [reflexivity | discriminate]).
  destruct (map strip (split Char.equals w)) as [|k [|vi [|x xs]]] eqn:E;
    try (split; [reflexivity | discriminate]).
  apply value_item_length in E. specialize (Hw w eq_refl).
  destruct (Ha vi) as [E' N]; [lia|]. rewrite <- E'.
  destruct (self1 vi); simpl; split; try reflexivity; try discriminate; contradiction.
Qed.

(** The body calls [self] on strictly shorter strings only: candidates
    that agree there give the same result, and a result at all. *)
Lemma classify_agree value self1 self2 u :
  String.length u <= String.length value ->
  agree_below value self1 self2 ->
  types_leaves_below value self1 ->
  classify self1 u = classify self2 u /\ classify self1 u <> NoFuel.
Proof.
  intros Hu Ha Hl. unfold classify, handle_list.
  destruct (contains Char.comma u) eqn:Hc.
  - destruct (mapM_agree (fun i => self1 (strip i)) (fun i => self2 (strip i))
                         (split Char.comma u)) as [E N].
    { intros p Hp. apply Ha.
      pose proof (stripped_piece_shorter _ _ _ Hc Hp). lia. }
    rewrite <- E.
    destruct (mapM (fun i => self1 (strip i)) (split Char.comma u)) as [l|e|];
      simpl; [|split; [reflexivity | discriminate] | contradiction].
    rewrite !handle_dict_list.
    destruct (existsb (py_eq_str (String Char.semicolon "")) l && existsb (py_eq_str (String Char.equals "")) l);
      simpl; split; try reflexivity; discriminate.
  - simpl. unfold handle_dict. simpl.
    destruct (contains Char.semicolon u) eqn:Hs; simpl;
      [|rewrite handle_bool_str; split; [reflexivity | discriminate]].
    destruct (contains Char.equals u) eqn:He; simpl;
      [|rewrite handle_bool_str; split; [reflexivity | discriminate]].
    assert (forall p, In p (split Char.semicolon u) ->
                      self1 (strip p) = Return (leaf (unquote (strip p)))) as H1.
    { intros p Hp. apply Hl.
      - pose proof (stripped_piece_shorter _ _ _ Hs Hp). lia.
      - now apply (stripped_piece_contains Char.semicolon _ u).
      - now apply (stripped_piece_no_sep Char.semicolon u). }
    assert (forall p, In p (split Char.semicolon u) ->
                      self2 (strip p) = Return (leaf (unquote (strip p)))) as H2.
    { intros p Hp. rewrite <- (H1 p Hp). symmetry. apply Ha.
      pose proof (stripped_piece_shorter _ _ _ Hs Hp). lia. }
    rewrite (mapM_pure _ (fun p => leaf (unquote (strip p))) _ H1).
    rewrite (mapM_pure _ (fun p => leaf (unquote (strip p))) _ H2).
    simpl.
    destruct (foldM_agree (dict_item self1) (dict_item self2)
                (map (fun p => leaf (unquote (strip p))) (split Char.semicolon u)))
      with (s := @nil (string * TypedValue)) as [E N].
    { intros acc item Hi. apply (dict_item_agree value); [assumption|].
      intros w ->. apply in_map_iff in Hi as (p & Hw & Hp).
      pose proof (stripped_piece_shorter _ _ _ Hs Hp).
      pose proof (unquote_length (strip p)).
      unfold leaf in Hw. destruct (mem (lower (unquote (strip p))) BOOLEANS);
        [discriminate|]. injection Hw as <-. lia. }
    rewrite <- E.
    destruct (foldM (dict_item self1) [] _); simpl;
      split; try reflexivity; try discriminate; contradiction.
Qed.

Lemma body_agree value self1 self2 :
  agree_below value self1 self2 ->
  types_leaves_below value self1 ->
  typed_value_body self1 value = typed_value_body self2 value
  /\ typed_value_body self1 value <> NoFuel.
Proof.
  intros Ha Hl. unfold typed_value_body.
  apply (classify_agree value); auto using unquote_length.
Qed.

Lemma fuel_types_leaves n value :
  String.length value <= n -> types_leaves_below value (typed_value_fuel n).
Proof.
  intros Hn t Ht Hc Hs. destruct n as [|n]; [lia|]. simpl. now apply body_leaf.
Qed.

(** Any budget above the length gives the answer of [typed_value], and
    that is an answer. *)
Lemma fuel_enough value :
  forall n, String.length value < n ->
            typed_value_fuel n value = typed_value value /\ typed_value value <> NoFuel.
Proof.
  remember (String.length value) as len eqn:Hlen.
  revert value Hlen.
  induction len as [len IH] using lt_wf_ind. intros value -> n Hn.
  destruct n as [|n]; [lia|]. unfold typed_value. simpl.
  assert (agree_below value (typed_value_fuel (String.length value)) (typed_value_fuel n)) as Ha.
  { intros t Ht.
    destruct (IH (String.length t) Ht t eq_refl (String.length value) Ht) as [E1 N].
    destruct (IH (String.length t) Ht t eq_refl n) as [E2 _]; [lia|].
    rewrite E1, E2. auto. }
  destruct (body_agree value _ _ Ha) as [E N].
  { now apply fuel_types_leaves. }
  rewrite E.
  split; [reflexivity|]. now rewrite <- E.
Qed.

Lemma typed_value_terminates value : typed_value value <> NoFuel.
Proof. apply (fuel_enough value (S (String.length value))). lia. Qed.

Lemma typed_value_types_leaves value : types_leaves_below value typed_value.
Proof.
  intros t Ht Hc Hs. unfold typed_value. simpl. now apply body_leaf.
Qed.

(** The defining equation of the Python function. *)
Lemma typed_value_unfold value :
  typed_value value = typed_value_body typed_value value.
Proof.
  unfold typed_value at 1. simpl.
  apply body_agree.
  - intros t Ht. destruct (fuel_enough t (String.length value) Ht) as [E N].
    rewrite E. auto.
  - now apply fuel_types_leaves.
Qed.

Lemma typed_value_leaf t :
  contains Char.comma t = false ->
  contains Char.semicolon t && contains Char.equals t = false ->
  typed_value t = Return (leaf (unquote t)).
Proof.
  intros Hc Hm. rewrite typed_value_unfold. unfold typed_value_body.
  apply classify_leaf.
  - now rewrite unquote_contains by apply plain_comma.
  - now rewrite !unquote_contains by reflexivity.
Qed.

End Recursion.

(* ================================================================= *)
(** * Lists and mappings *)

Section ListsAndMappings.
Import Str StrFacts.

Lemma existsb_py_eq_str s l : existsb (py_eq_str s) l = true <-> In (PyStr s) l.
Proof.
  rewrite existsb_exists. split.
  - intros (x & Hx & E). destruct x; simpl in E; try discriminate.
    apply String.eqb_eq in E. now subst.
  - intros H. exists (PyStr s). split; [assumption | apply String.eqb_refl].
Qed.

Lemma Forall2_length_eq {A B : Type} (R : A -> B -> Prop) l l' :
  Forall2 R l l' -> List.length l = List.length l'.
Proof. induction 1; simpl; congruence. Qed.

(** A well-formed item: the dict loop stores its key and typed value. *)
Lemma dict_item_wellformed acc w :
  contains Char.comma w = false ->
  contains Char.semicolon w = false ->
  count Char.equals w = 1 ->
  exists l r,
    split Char.equals w = [l; r]
    /\ typed_value (strip r) = Return (leaf (unquote (strip r)))
    /\ dict_item typed_value acc (PyStr w)
       = Return (dict_set acc (strip l) (leaf (unquote (strip r)))).
Proof.
  intros Hc Hs He.
  pose proof (split_length Char.equals w) as Hl. rewrite He in Hl.
  destruct (split Char.equals w) as [|l [|r [|x xs]]] eqn:E; try discriminate.
  exists l, r.
  assert (In r (split Char.equals w)) as Hr by (rewrite E; simpl; auto).
  assert (typed_value (strip r) = Return (leaf (unquote (strip r)))) as Ht.
  { apply typed_value_leaf.
    - now apply (stripped_piece_contains Char.equals _ w).
    - rewrite (stripped_piece_contains Char.equals Char.semicolon w) by auto.
      reflexivity. }
  repeat split; [assumption|].
  unfold dict_item. simpl. rewrite E. simpl. rewrite Ht. reflexivity.
Qed.

Lemma piece_item_equals p :
  count Char.equals (unquote (strip p)) = count Char.equals p.
Proof.
  rewrite unquote_count by reflexivity. now rewrite strip_count by reflexivity.
Qed.

Lemma piece_item_contains c p :
  plain c = true -> contains c p = false -> contains c (unquote (strip p)) = false.
Proof.
  intros Hp H. rewrite unquote_contains by assumption.
  now rewrite strip_contains by now apply plain_not_space.
Qed.

Lemma dict_loop_wellformed pieces :
  Forall (fun p => contains Char.comma p = false
                   /\ contains Char.semicolon p = false
                   /\ count Char.equals p = 1) pieces ->
  forall acc, exists kvs,
    foldM (dict_item typed_value) acc (mapping_items pieces)
    = Return (fold_left (fun d kv => dict_set d (fst kv) (snd kv)) kvs acc)
    /\ Forall2 (fun piece kv =>
                  exists l r, split Char.equals (unquote (strip piece)) = [l; r]
                              /\ fst kv = strip l
                              /\ typed_value (strip r) = Return (snd kv))
               pieces kvs.
Proof.
  induction 1 as [|p pieces (Hc & Hs & He) _ IH]; intros acc.
  - exists []. split; [reflexivity | constructor].
  - simpl.
    assert (count Char.equals (unquote (strip p)) = 1) as He'
      by now rewrite piece_item_equals.
    rewrite leaf_with_equals by (apply contains_true_count; lia).
    destruct (dict_item_wellformed acc (unquote (strip p))) as (l & r & E & Ht & Hd);
      auto using piece_item_contains.
    rewrite Hd. simpl.
    destruct (IH (dict_set acc (strip l) (leaf (unquote (strip r))))) as (kvs & Hf & H2).
    exists ((strip l, leaf (unquote (strip r))) :: kvs). split; [exact Hf|].
    constructor; [|assumption]. exists l, r. auto.
Qed.

(** A malformed item ends the dict loop: a boolean has no [split], and a
    string without exactly one [=] does not unpack into two names. *)
Lemma dict_item_malformed acc w :
  count Char.equals w <> 1 ->
  exists e, dict_item typed_value acc (leaf w) = Raise e
            /\ (e = ValueError \/ e = AttributeError).
Proof.
  intros He. unfold leaf. destruct (mem (lower w) BOOLEANS).
  - exists AttributeError. split; [reflexivity | now right].
  - exists ValueError. split; [|now left].
    unfold dict_item. simpl.
    pose proof (split_length Char.equals w) as Hl.
    destruct (split Char.equals w) as [|l [|r [|x xs]]]; simpl in *;
      try reflexivity.
    lia.
Qed.

Lemma dict_loop_malformed pieces :
  Forall (fun p => contains Char.comma p = false
                   /\ contains Char.semicolon p = false) pieces ->
  Exists (fun p => count Char.equals p <> 1) pieces ->
  forall acc, exists e,
    foldM (dict_item typed_value) acc (mapping_items pieces) = Raise e
    /\ (e = ValueError \/ e = AttributeError).
Proof.
  induction 1 as [|p pieces (Hc & Hs) Hrest IH]; intros Hex acc.
  - inversion Hex.
  - simpl. destruct (Nat.eq_dec (count Char.equals p) 1) as [He|He].
    + assert (count Char.equals (unquote (strip p)) = 1) as He'
        by now rewrite piece_item_equals.
      rewrite leaf_with_equals by (apply contains_true_count; lia).
      destruct (dict_item_wellformed acc (unquote (strip p))) as (l & r & E & Ht & Hd);
        auto using piece_item_contains.
      rewrite Hd. simpl. apply IH.
      inversion Hex; subst; [contradiction | assumption].
    + destruct (dict_item_malformed acc (unquote (strip p))) as (e & Hd & Hk).
      { now rewrite piece_item_equals. }
      exists e. rewrite Hd. auto.
Qed.

(** The pieces of a comma-free mapping candidate have neither separator. *)
Lemma mapping_pieces_clean u :
  contains Char.comma u = false ->
  Forall (fun p => contains Char.comma p = false /\ contains Char.semicolon p = false)
         (split Char.semicolon u).
Proof.
  intros Hc. apply Forall_forall. intros p Hp. split.
  - apply contains_false_count. apply contains_false_count in Hc.
    apply (split_piece_count Char.semicolon Char.comma) in Hp. lia.
  - apply contains_false_count. now apply split_piece_no_sep in Hp.
Qed.

(** The mapping path, up to the dict loop. *)
Lemma typed_value_mapping_path value :
  contains Char.comma value = false ->
  contains Char.semicolon value = true ->
  contains Char.equals value = true ->
  typed_value value
  = d <- foldM (dict_item typed_value) []
               (mapping_items (split Char.semicolon (unquote value))) ;;
    Return (PyDict d).
Proof.
  intros Hc Hs He. rewrite typed_value_unfold.
  unfold typed_value_body, classify, handle_list.
  rewrite <- (unquote_contains Char.comma) in Hc by reflexivity.
  rewrite <- (unquote_contains Char.semicolon) in Hs by reflexivity.
  rewrite <- (unquote_contains Char.equals) in He by reflexivity.
  rewrite Hc. simpl. unfold handle_dict. simpl. rewrite Hs, He. simpl.
  rewrite (mapM_pure _ (fun p => leaf (unquote (strip p)))).
  - simpl. fold (mapping_items (split Char.semicolon (unquote value))).
    destruct (foldM _ _ _); reflexivity.
  - intros p Hp.
    pose proof (mapping_pieces_clean _ Hc) as Hcl.
    rewrite Forall_forall in Hcl. destruct (Hcl p Hp) as [H1 H2].
    apply typed_value_leaf.
    + now rewrite strip_contains by reflexivity.
    + rewrite (strip_contains Char.semicolon) by reflexivity. now rewrite H2.
Qed.

(** A mapping candidate with a piece that lacks exactly one [=] raises. *)
Lemma typed_value_malformed_mapping value :
  contains Char.comma value = false ->
  contains Char.semicolon value = true ->
  contains Char.equals value = true ->
  Exists (fun p => count Char.equals p <> 1) (split Char.semicolon (unquote value)) ->
  exists e, typed_value value = Raise e /\ (e = ValueError \/ e = AttributeError).
Proof.
  intros Hc Hs He Hex. rewrite typed_value_mapping_path by assumption.
  destruct (dict_loop_malformed (split Char.semicolon (unquote value))) with (acc := @nil (string * TypedValue))
    as (e & Hf & Hk); [|assumption|].
  - apply mapping_pieces_clean. now rewrite unquote_contains by reflexivity.
  - exists e. rewrite Hf. auto.
Qed.

End ListsAndMappings.

(* ================================================================= *)
(** * Keys and the line loop *)

Section Keys.
Import StrFacts.

Lemma is_key_char_lower c : is_key_char (Char.lower c) = is_key_char c.
Proof. all_ascii c. Qed.

Lemma is_key_start_lower c : is_key_start (Char.lower c) = is_key_start c.
Proof. all_ascii c. Qed.

Lemma is_key_start_char c : is_key_start c = true -> is_key_char c = true.
Proof. destruct c as [[] [] [] [] [] [] [] []]; intros H; try reflexivity; discriminate H. Qed.

Lemma is_key_char_not_space c : is_key_char c = true -> Char.isspace c = false.
Proof. destruct c as [[] [] [] [] [] [] [] []]; intros H; try reflexivity; discriminate H. Qed.

Lemma is_key_char_not_newline c : is_key_char c = true -> Ascii.eqb c Char.newline = false.
Proof. destruct c as [[] [] [] [] [] [] [] []]; intros H; try reflexivity; discriminate H. Qed.

Lemma lower_append s t : Str.lower (s ++ t) = (Str.lower s ++ Str.lower t)%string.
Proof. induction s as [|a s IH]; simpl; [reflexivity|]. now rewrite IH. Qed.

Lemma all_key_chars_lower s : all_chars is_key_char (Str.lower s) = all_chars is_key_char s.
Proof.
  induction s as [|a s IH]; simpl; [reflexivity|]. now rewrite is_key_char_lower, IH.
Qed.

Lemma key_shaped_lower k : key_shaped (Str.lower k) = key_shaped k.
Proof.
  destruct k as [|c body]; simpl; [reflexivity|].
  now rewrite is_key_start_lower, all_key_chars_lower.
Qed.

Lemma key_shaped_strip k : key_shaped k = true -> Str.strip k = k.
Proof.
  intros H. apply (strip_all_chars is_key_char); [apply is_key_char_not_space|].
  destruct k as [|c body]; simpl in *; [discriminate|].
  apply andb_true_iff in H as [H1 H2]. now rewrite (is_key_start_char c H1).
Qed.

Lemma key_tail_value_shape s k v :
  key_tail_value s = Some (k, v) -> all_chars is_key_char k = true.
Proof.
  revert k. induction s as [|c s IH]; simpl; intros k; [discriminate|].
  destruct (is_key_char c) eqn:Hc.
  - destruct (key_tail_value s) as [[k' v']|]; [|discriminate].
    intros [= <- <-]. simpl. now rewrite Hc, (IH k').
  - destruct (Ascii.eqb c Char.equals); [|discriminate].
    intros [= <- <-]. reflexivity.
Qed.

(** What the line pattern captures as the key has the shape of a key. *)
Lemma regex_key_value_key_shaped line k v :
  regex_key_value_match line = Some (k, v) -> key_shaped k = true.
Proof.
  destruct line as [|c s]; simpl; [discriminate|].
  destruct (is_key_start c) eqn:Hc; [|discriminate].
  destruct (key_tail_value s) as [[k' v']|] eqn:E; [|discriminate].
  intros [= <- <-]. simpl. rewrite Hc. simpl. eapply key_tail_value_shape; eauto.
Qed.

Lemma key_tail_match_all s : all_chars is_key_char s = true -> key_tail_match s = true.
Proof.
  induction s as [|c s IH]; simpl; [reflexivity|].
  intros H. apply andb_true_iff in H as [H1 H2]. rewrite H1. auto.
Qed.

(** A key appended to a tail the pattern accepts is accepted unless that
    tail ended in the newline that [$] lets through. *)
Lemma key_tail_match_append s k :
  key_tail_match s = true -> Str.nonempty k = true -> all_chars is_key_char k = true ->
  key_tail_match (s ++ k) = negb (Str.contains Char.newline s).
Proof.
  intros Hs Hn Hk. induction s as [|c s IH]; simpl in *.
  - now apply key_tail_match_all.
  - destruct (is_key_char c) eqn:Hc.
    + rewrite (is_key_char_not_newline c Hc). simpl. auto.
    + apply andb_true_iff in Hs as [H1 H2]. rewrite H1. simpl.
      destruct s; [|discriminate]. simpl. now rewrite Hn.
Qed.

Lemma key_tail_match_lower s : key_tail_match (Str.lower s) = key_tail_match s.
Proof.
  induction s as [|c s IH]; simpl; [reflexivity|].
  rewrite is_key_char_lower, IH.
  rewrite (lower_char_low c Char.newline) by (vm_compute; lia).
  destruct s; reflexivity.
Qed.

Lemma regex_key_match_lower s : regex_key_match (Str.lower s) = regex_key_match s.
Proof.
  destruct s as [|c s]; simpl; [reflexivity|].
  now rewrite is_key_start_lower, key_tail_match_lower.
Qed.

Lemma regex_key_match_shaped k : key_shaped k = true -> regex_key_match k = true.
Proof.
  destruct k as [|c body]; simpl; [discriminate|].
  intros H. apply andb_true_iff in H as [H1 H2].
  now rewrite H1, key_tail_match_all.
Qed.

(** Once the prefix has passed its own check, whether a composed key is
    valid does not depend on the key: it is valid exactly when the prefix
    has no newline. *)
Lemma composed_key_valid p k :
  Str.nonempty (prefix p) && negb (regex_key_match (prefix p)) = false ->
  key_shaped k = true ->
  regex_key_match (compose_key p k) = negb (Str.contains Char.newline (prefix p)).
Proof.
  intros Hp Hk. unfold compose_key.
  assert (regex_key_match (if Str.nonempty (prefix p) then (prefix p ++ k)%string else k)
          = negb (Str.contains Char.newline (prefix p))) as E.
  { destruct (prefix p) as [|c s] eqn:Ep; simpl in *.
    - now apply regex_key_match_shaped.
    - apply negb_false_iff in Hp. apply andb_true_iff in Hp as [H1 H2].
      rewrite H1. simpl.
      rewrite (is_key_char_not_newline c (is_key_start_char c H1)). simpl.
      destruct k as [|kc body]; simpl in Hk; [discriminate|].
      apply andb_true_iff in Hk as [Hk1 Hk2].
      apply key_tail_match_append; auto.
      simpl. now rewrite (is_key_start_char kc Hk1). }
  destruct (lower p); [rewrite regex_key_match_lower|]; exact E.
Qed.

(** With a prefix that breaks every key, the loop stops at the first
    assignment line, before anything is stored. *)
Lemma read_lines_first_key_invalid p lines variables attached :
  (forall k, key_shaped k = true -> regex_key_match (compose_key p k) = false) ->
  Exists (fun line => regex_key_value_match line <> None) lines ->
  exists key, read_lines p lines variables attached
              = fail_json (msg_invalid_key key) (result_of variables attached).
Proof.
  intros Hbad. induction 1 as [line lines Hm | line lines _ IH]; simpl.
  - destruct (regex_key_value_match line) as [[k v]|] eqn:E; [|contradiction].
    pose proof (regex_key_value_key_shaped _ _ _ E) as Hk.
    rewrite (key_shaped_strip k Hk), (Hbad k Hk). simpl. eauto.
  - destruct (regex_key_value_match line) as [[k v]|] eqn:E; [|exact IH].
    pose proof (regex_key_value_key_shaped _ _ _ E) as Hk.
    rewrite (key_shaped_strip k Hk), (Hbad k Hk). simpl. eauto.
Qed.

Lemma read_lines_changed p lines :
  forall variables attached r,
    read_lines p lines variables attached = exit_json r -> changed r = false.
Proof.
  induction lines as [|line lines IH]; simpl; intros variables attached r.
  - intros [= <-]. reflexivity.
  - destruct (regex_key_value_match line) as [[k v]|]; [|apply IH].
    destruct (negb (regex_key_match (compose_key p (Str.strip k)))); [discriminate|].
    destruct (typed_value (Str.strip v)); try discriminate. apply IH.
Qed.

Lemma read_lines_no_vars p lines :
  check_mode p = true \/ Forall (fun line => regex_key_value_match line = None) lines ->
  forall variables r,
    read_lines p lines variables false = exit_json r -> vars r = None.
Proof.
  induction lines as [|line lines IH]; simpl; intros H variables r.
  - intros [= <-]. reflexivity.
  - destruct (regex_key_value_match line) as [[k v]|] eqn:E.
    + destruct H as [H|H]; [|inversion H; congruence].
      destruct (negb (regex_key_match (compose_key p (Str.strip k)))); [discriminate|].
      destruct (typed_value (Str.strip v)); try discriminate.
      rewrite H. simpl. apply IH. now left.
    + apply IH. destruct H as [H|H]; [now left | right; now inversion H].
Qed.

End Keys.

(* ================================================================= *)
(** * The module on sample input *)

Example typed_value_yes : typed_value "YES" = Return (PyBool true).
Proof. reflexivity. Qed.

Example typed_value_only_comma : typed_value "," = Return (PyList [PyStr ""; PyStr ""]).
Proof. reflexivity. Qed.

Example typed_value_empty_quotes : typed_value "''" = Return (PyStr "").
Proof. reflexivity. Qed.

(** The dict test also runs on a list: when the elements include both the
    string [;] and the string [=], it passes and [split] fails on the
    list. *)
Example typed_value_list_of_separators : typed_value ";,=" = Raise AttributeError.
Proof. reflexivity. Qed.

Example main_sample :
  main sample_fs sample_params
  = exit_json {| changed := false;
                 vars := Some [("FOO", PyList [PyBool true; PyStr "2"; PyStr "3"]);
                               ("BAR", PyDict [("a", PyBool true); ("b", PyStr "2")]);
                               ("BAZ", PyBool true);
                               ("QUX", PyStr "hello world")] |}.
Proof. vm_compute. reflexivity. Qed.

(** A line whose name starts with a digit is not an assignment line: it
    is skipped. *)
Example main_digit_name_skipped :
  main (one_file "/f" [nl "A=x"; nl "1FOO=bar"])
       {| path := "/f"; prefix := ""; lower := false; check_mode := false |}
  = exit_json {| changed := false; vars := Some [("A", PyStr "x")] |}.
Proof. vm_compute. reflexivity. Qed.

(** A file that does not open, or stops decoding after a stored line,
    ends the run with the exception; nothing catches it and the entries
    stored so far are lost with it. *)
Example main_unreadable_file :
  main (fun _ => Some (Unreadable OSError)) sample_params = uncaught OSError.
Proof. reflexivity. Qed.

Example main_broken_file :
  main (fun _ => Some (Readable [nl "A=x"] (Some UnicodeDecodeError))) sample_params
  = uncaught UnicodeDecodeError.
Proof. reflexivity. Qed.

(* ================================================================= *)
(** * Reading the file *)

Section FileFacts.
Import StrFacts.

Lemma end_of_iteration_exit broken e r :
  end_of_iteration broken e = exit_json r -> broken = None /\ e = exit_json r.
Proof.
  destruct broken as [x|], e; simpl; try discriminate; auto.
Qed.

Lemma end_of_iteration_fail broken e msg r :
  end_of_iteration broken e = fail_json msg r <-> e = fail_json msg r.
Proof.
  destruct broken as [x|], e; simpl; split; try discriminate; auto.
Qed.

Lemma end_of_iteration_uncaught broken e x :
  end_of_iteration broken e = uncaught x ->
  e = uncaught x \/ (broken = Some x /\ exists r, e = exit_json r).
Proof.
  destruct broken as [y|], e; simpl; try discriminate; auto.
  intros [= <-]. right. eauto.
Qed.

Lemma read_file_exit p file r :
  read_file p file = exit_json r ->
  exists lines, file = Readable lines None /\ read_lines p lines [] false = exit_json r.
Proof.
  destruct file as [e|lines broken]; simpl; [discriminate|].
  intros H. apply end_of_iteration_exit in H as [-> H]. eauto.
Qed.

Lemma read_file_fail p file msg r :
  read_file p file = fail_json msg r ->
  exists lines broken,
    file = Readable lines broken /\ read_lines p lines [] false = fail_json msg r.
Proof.
  destruct file as [e|lines broken]; simpl; [discriminate|].
  intros H. apply end_of_iteration_fail in H. eauto.
Qed.

(** A text that starts with a quote is no boolean token. *)
Lemma leaf_quoted t : quoted t = true -> leaf t = PyStr t.
Proof.
  intros Hq. unfold leaf. destruct (mem (Str.lower t) BOOLEANS) eqn:E; [|reflexivity].
  apply token_shape in E as (_ & _ & _ & H1 & H2).
  rewrite lower_startswith in H1, H2 by (vm_compute; lia).
  unfold quoted in Hq. rewrite H1, H2 in Hq. discriminate.
Qed.

End FileFacts.

(* ================================================================= *)
(** * The claims *)

Section Claims.
Import StrFacts.

(** C1 (as amended).  For every input string that contains a comma: if
    [typed_value] returns a value on each trimmed comma-separated piece of
    the unquoted string, and these values do not include both the string
    [;] and the string [=], then [typed_value] returns the list of these
    values, in order, and its length is the number of commas plus one.
    The comma test comes first: semicolons and equals signs in the string
    do not make it a mapping.  If [typed_value] raises on a piece, after
    returning on the pieces before it, the call raises the same. *)
Theorem typed_value_comma_list (value : string) :
  Str.contains Char.comma value = true ->
  (forall vs,
      Forall2 (fun piece v => typed_value (Str.strip piece) = Return v)
              (Str.split Char.comma (unquote value)) vs ->
      ~ (In (PyStr ";") vs /\ In (PyStr "=") vs) ->
      typed_value value = Return (PyList vs)
      /\ List.length vs = Str.count Char.comma value + 1)
  /\ (forall pre piece post vs e,
         Str.split Char.comma (unquote value) = (pre ++ piece :: post)%list ->
         Forall2 (fun piece v => typed_value (Str.strip piece) = Return v) pre vs ->
         typed_value (Str.strip piece) = Raise e ->
         typed_value value = Raise e).
Proof.
  intros Hc. split.
  - intros vs HF Hn. split.
    + rewrite typed_value_unfold. unfold typed_value_body, classify, handle_list.
      rewrite unquote_contains by reflexivity. rewrite Hc.
      rewrite (mapM_Forall2 _ _ _ HF). simpl. rewrite handle_dict_list.
      destruct (existsb (py_eq_str (String Char.semicolon "")) vs) eqn:E1;
        [|reflexivity].
      destruct (existsb (py_eq_str (String Char.equals "")) vs) eqn:E2;
        [|reflexivity].
      apply existsb_py_eq_str in E1, E2. exfalso. apply Hn. split; assumption.
    + rewrite <- (Forall2_length_eq _ _ _ HF), split_length.
      now rewrite unquote_count by reflexivity.
  - intros pre piece post vs e Hsplit HF He.
    rewrite typed_value_unfold. unfold typed_value_body, classify, handle_list.
    rewrite unquote_contains by reflexivity. rewrite Hc, Hsplit.
    rewrite (mapM_raise (fun i => typed_value (Str.strip i)) pre piece post vs e HF He).
    reflexivity.
Qed.

Lemma typed_value_comma_list_witness :
  (typed_value "a=1;b=2, 'x' ,no"
   = Return (PyList [PyDict [("a", PyBool true); ("b", PyStr "2")]; PyStr "x"; PyBool false])
   /\ 3 = Str.count Char.comma "a=1;b=2, 'x' ,no" + 1)
  /\ typed_value "x, a;b=1 ,c" = Raise ValueError.
Proof.
  split.
  - apply (proj1 (typed_value_comma_list "a=1;b=2, 'x' ,no" eq_refl)
             [PyDict [("a", PyBool true); ("b", PyStr "2")]; PyStr "x"; PyBool false]).
    + repeat constructor.
    + intros [H _]. simpl in H. destruct H as [H|[H|[H|[]]]]; discriminate H.
  - apply (proj2 (typed_value_comma_list "x, a;b=1 ,c" eq_refl)
             ["x"] " a;b=1 " ["c"] [PyStr "x"] ValueError).
    + reflexivity.
    + repeat constructor.
    + reflexivity.
Defined.

(** C1 (as stated) fails: a string with a comma whose first piece is a
    malformed mapping gives no list, the call raises. *)
Lemma typed_value_comma_list_counterexample :
  Str.contains Char.comma "a;b=1,c" = true
  /\ ~ (exists vs, typed_value "a;b=1,c" = Return (PyList vs)).
Proof.
  split; [reflexivity|]. intros [vs H]. vm_compute in H. discriminate H.
Qed.

(** C2 (as amended).  For every input string that contains a semicolon
    and an equals sign but no comma: if each semicolon-separated piece (of
    the unquoted string) contains exactly one [=], [typed_value] returns
    the mapping built in piece order, later keys overwriting equal earlier
    ones, from one entry per piece; the key is the trimmed substring left
    of the [=] of the trimmed and unquoted piece, the value is
    [typed_value] of the trimmed substring right of it.  If some piece
    does not contain exactly one [=], the call raises. *)
Theorem typed_value_mapping (value : string) :
  Str.contains Char.comma value = false ->
  Str.contains Char.semicolon value = true ->
  Str.contains Char.equals value = true ->
  (Forall (fun piece => Str.count Char.equals piece = 1)
          (Str.split Char.semicolon (unquote value)) ->
   exists kvs,
     typed_value value = Return (PyDict (dict_of_items kvs))
     /\ Forall2 (fun piece kv =>
                   exists l r,
                     Str.split Char.equals (unquote (Str.strip piece)) = [l; r]
                     /\ fst kv = Str.strip l
                     /\ typed_value (Str.strip r) = Return (snd kv))
                (Str.split Char.semicolon (unquote value)) kvs)
  /\ (Exists (fun piece => Str.count Char.equals piece <> 1)
             (Str.split Char.semicolon (unquote value)) ->
      exists e, typed_value value = Raise e /\ (e = ValueError \/ e = AttributeError)).
Proof.
  intros Hc Hs He. split.
  - intros Hall. rewrite typed_value_mapping_path by assumption.
    destruct (dict_loop_wellformed (Str.split Char.semicolon (unquote value)))
      with (acc := @nil (string * TypedValue)) as (kvs & Hf & H2).
    + assert (Str.contains Char.comma (unquote value) = false) as Hc'
        by now rewrite unquote_contains by reflexivity.
      pose proof (mapping_pieces_clean _ Hc') as Hcl.
      rewrite Forall_forall in *. intros p Hp.
      destruct (Hcl p Hp). auto.
    + exists kvs. rewrite Hf. auto.
  - now apply typed_value_malformed_mapping.
Qed.

Lemma typed_value_mapping_witness :
  (exists kvs,
      typed_value "a = 1; 'b=x' ;a=no" = Return (PyDict (dict_of_items kvs))
      /\ Forall2 (fun piece kv =>
                    exists l r,
                      Str.split Char.equals (unquote (Str.strip piece)) = [l; r]
                      /\ fst kv = Str.strip l
                      /\ typed_value (Str.strip r) = Return (snd kv))
                 (Str.split Char.semicolon (unquote "a = 1; 'b=x' ;a=no")) kvs)
  /\ (exists e, typed_value "a=1;b=c=d" = Raise e /\ (e = ValueError \/ e = AttributeError)).
Proof.
  split.
  - apply (proj1 (typed_value_mapping "a = 1; 'b=x' ;a=no" eq_refl eq_refl eq_refl)).
    repeat constructor.
  - apply (proj2 (typed_value_mapping "a=1;b=c=d" eq_refl eq_refl eq_refl)).
    apply Exists_cons_tl. apply Exists_cons_hd. discriminate.
Defined.

(** C2 (as stated) fails: a piece without [=] makes the call raise, and
    the key of a quoted piece is taken after its quotes are gone. *)
Lemma typed_value_mapping_counterexample :
  (Str.contains Char.semicolon "a=1;b" = true
   /\ Str.contains Char.equals "a=1;b" = true
   /\ Str.contains Char.comma "a=1;b" = false
   /\ ~ (exists d, typed_value "a=1;b" = Return (PyDict d)))
  /\ typed_value "'a=1';b=2" = Return (PyDict [("a", PyBool true); ("b", PyStr "2")]).
Proof.
  repeat split; try reflexivity.
  intros [d H]. vm_compute in H. discriminate H.
Qed.

(** C3.  When the value of an assignment line is a mapping candidate
    with a piece that does not contain exactly one [=], the run ends
    there with a [ValueError] or an [AttributeError] that nothing catches:
    [main] reports it neither through [fail_json] nor through
    [exit_json]. *)
Theorem malformed_mapping_is_uncaught
    (p : Params) (line k v : string) (rest : list string)
    (variables : dict TypedValue) (attached : bool) :
  regex_key_value_match line = Some (k, v) ->
  regex_key_match (compose_key p (Str.strip k)) = true ->
  Str.contains Char.comma (Str.strip v) = false ->
  Str.contains Char.semicolon (Str.strip v) = true ->
  Str.contains Char.equals (Str.strip v) = true ->
  Exists (fun piece => Str.count Char.equals piece <> 1)
         (Str.split Char.semicolon (unquote (Str.strip v))) ->
  exists e,
    typed_value (Str.strip v) = Raise e
    /\ read_lines p (line :: rest) variables attached = uncaught e
    /\ (e = ValueError \/ e = AttributeError).
Proof.
  intros Hm Hk Hc Hs He Hex.
  destruct (typed_value_malformed_mapping _ Hc Hs He Hex) as (e & Ht & Hk').
  exists e. split; [assumption|]. split; [|assumption].
  simpl. rewrite Hm, Hk, Ht. reflexivity.
Qed.

Lemma malformed_mapping_is_uncaught_witness :
  main (one_file "/root/my_conf.sh" [nl "FOO=bar"; nl "OPTS=a;b=1"]) sample_params
  = uncaught ValueError
  /\ exists e,
       typed_value "a=1;yes" = Raise e
       /\ read_lines sample_params [nl "OPTS=a=1;yes"; nl "FOO=bar"] [] false = uncaught e
       /\ (e = ValueError \/ e = AttributeError).
Proof.
  split; [reflexivity|].
  apply (malformed_mapping_is_uncaught
           sample_params (nl "OPTS=a=1;yes") "OPTS" "a=1;yes" [nl "FOO=bar"] [] false);
    try reflexivity.
  apply Exists_cons_tl. apply Exists_cons_hd. discriminate.
Defined.

(** C4 (as amended).  For every file and every assignment line of it
    whose composed key fails the key pattern, the run ends in
    [fail_json] and the result carries no [vars]: this happens only when
    the prefix failed its own check or has a newline in it, so the run
    fails at the prefix check or at the key check of the first assignment
    line, before any entry is stored.  A line that does not start with a
    letter or an underscore is no assignment line, whatever its name: it
    is skipped. *)
Theorem invalid_key_fails_before_any_entry (fs : FileSystem) (p : Params) :
  (forall lines broken line k v,
      fs (path p) = Some (Readable lines broken) ->
      In line lines ->
      regex_key_value_match line = Some (k, v) ->
      regex_key_match (compose_key p (Str.strip k)) = false ->
      (exists msg,
          main fs p = fail_json msg {| changed := false; vars := None |}
          /\ (msg = msg_invalid_prefix (prefix p) \/ exists key, msg = msg_invalid_key key))
      /\ (regex_key_match (prefix p) = false
          \/ Str.contains Char.newline (prefix p) = true))
  /\ (forall c s rest variables attached,
         is_key_start c = false ->
         read_lines p (String c s :: rest) variables attached
         = read_lines p rest variables attached).
Proof.
  split.
  - intros lines broken line k v Hfs Hin Hm Hbad. unfold main. rewrite Hfs.
    destruct (Str.nonempty (prefix p) && negb (regex_key_match (prefix p))) eqn:Hp.
    + split; [eexists; split; [reflexivity | now left]|].
      apply andb_true_iff in Hp as [_ Hp]. apply negb_true_iff in Hp. now left.
    + pose proof (regex_key_value_key_shaped _ _ _ Hm) as Hk.
      rewrite (key_shaped_strip k Hk), (composed_key_valid p k Hp Hk) in Hbad.
      apply negb_false_iff in Hbad. split; [|now right].
      destruct (read_lines_first_key_invalid p lines [] false) as [key Hr].
      * intros k' Hk'. now rewrite (composed_key_valid p k' Hp Hk'), Hbad.
      * apply Exists_exists. exists line. split; [assumption | congruence].
      * exists (msg_invalid_key key). split; [|right; eauto].
        simpl. rewrite Hr. now destruct broken.
  - intros c s rest variables attached Hc. simpl. now rewrite Hc.
Qed.

Lemma invalid_key_fails_before_any_entry_witness :
  ((exists msg,
       main (one_file "/f" [nl "A=1"; nl "B=2"])
            {| path := "/f"; prefix := nl "P_"; lower := true; check_mode := false |}
       = fail_json msg {| changed := false; vars := None |}
       /\ (msg = msg_invalid_prefix (nl "P_") \/ exists key, msg = msg_invalid_key key))
   /\ (regex_key_match (nl "P_") = false \/ Str.contains Char.newline (nl "P_") = true))
  /\ read_lines sample_params [nl "1FOO=bar"; nl "A=x"] [] false
     = read_lines sample_params [nl "A=x"] [] false.
Proof.
  split.
  - apply (proj1 (invalid_key_fails_before_any_entry
                    (one_file "/f" [nl "A=1"; nl "B=2"])
                    {| path := "/f"; prefix := nl "P_"; lower := true; check_mode := false |})
                 [nl "A=1"; nl "B=2"] None (nl "B=2") "B" "2").
    + reflexivity.
    + simpl. auto.
    + reflexivity.
    + reflexivity.
  - apply (proj2 (invalid_key_fails_before_any_entry sample_fs sample_params)
                 "1"%char (nl "FOO=bar") [nl "A=x"] [] false).
    reflexivity.
Defined.

(** C4 (as stated) fails: the name of the line [1FOO=bar] starts with a
    digit, so its key fails the key pattern; yet the run does not fail, the
    line is skipped and the entry of the line before it is returned. *)
Lemma invalid_key_counterexample :
  name_of (nl "1FOO=bar") = "1FOO"
  /\ regex_key_match (compose_key sample_params (Str.strip "1FOO")) = false
  /\ main (one_file "/root/my_conf.sh" [nl "A=x"; nl "1FOO=bar"]) sample_params
     = exit_json {| changed := false; vars := Some [("A", PyStr "x")] |}.
Proof. repeat split. Qed.

(** C5.  [typed_value] terminates on every string: it gives an answer,
    the same for every recursion budget above the length of its argument;
    and every recursive call it makes is on a strictly shorter string,
    for the body gives that same answer when calls on other strings are
    refused. *)
Theorem typed_value_recursion_well_founded (value : string) :
  typed_value value <> NoFuel
  /\ typed_value_body (shorter_only value typed_value) value = typed_value value
  /\ (forall n, String.length value < n -> typed_value_fuel n value = typed_value value).
Proof.
  split; [apply typed_value_terminates|]. split.
  - rewrite typed_value_unfold. symmetry. apply body_agree.
    + intros t Ht. unfold shorter_only.
      apply Nat.ltb_lt in Ht. rewrite Ht. split; [reflexivity|].
      apply typed_value_terminates.
    + apply typed_value_types_leaves.
  - intros n Hn. now apply fuel_enough.
Qed.

Lemma typed_value_recursion_well_founded_witness :
  typed_value_fuel 40 "a=1;b=2, 'x' ,no" = typed_value "a=1;b=2, 'x' ,no".
Proof.
  apply (proj2 (proj2 (typed_value_recursion_well_founded "a=1;b=2, 'x' ,no"))).
  simpl. lia.
Defined.

(** C6.  A string that starts and ends with the same quote, single or
    double, loses that one pair and its inside is trimmed: the white
    space at both ends of the inside goes, nothing else.  The rest of the
    typing runs on what is left, with no second unquoting of it: without
    list or mapping separators the result is that text, or its boolean,
    and a text that is itself in quotes keeps them. *)
Theorem typed_value_strips_one_quote_layer (q : ascii) (inner l t r : string) :
  q = Char.squote \/ q = Char.dquote ->
  typed_value (String q (inner ++ String q ""))
  = classify typed_value (Str.strip inner)
  /\ (inner = (l ++ t ++ r)%string ->
      blank l = true -> blank r = true -> trimmed t = true ->
      Str.strip inner = t
      /\ typed_value (String q (inner ++ String q "")) = classify typed_value t
      /\ (Str.contains Char.comma t = false ->
          Str.contains Char.semicolon t && Str.contains Char.equals t = false ->
          typed_value (String q (inner ++ String q "")) = Return (leaf t))
      /\ (quoted t = true ->
          Str.contains Char.comma t = false ->
          Str.contains Char.semicolon t && Str.contains Char.equals t = false ->
          typed_value (String q (inner ++ String q "")) = Return (PyStr t))).
Proof.
  intros Hq.
  assert (typed_value (String q (inner ++ String q ""))
          = classify typed_value (Str.strip inner)) as E.
  { rewrite typed_value_unfold. unfold typed_value_body.
    now rewrite unquote_quoted. }
  split; [exact E|]. intros -> Hl Hr Ht.
  rewrite (strip_decompose l t r Hl Hr Ht) in E.
  split; [now apply strip_decompose|]. split; [exact E|]. split.
  - intros Hc Hm. rewrite E. now apply classify_leaf.
  - intros Hqt Hc Hm. rewrite E, classify_leaf by assumption.
    now rewrite leaf_quoted.
Qed.

Lemma typed_value_strips_one_quote_layer_witness :
  typed_value "'hello'" = Return (PyStr "hello")
  /\ typed_value (dq "hello") = Return (PyStr "hello")
  /\ typed_value "'  hello world  '" = Return (PyStr "hello world")
  /\ typed_value (dq "  Yes ") = Return (PyBool true)
  /\ typed_value "''hello''" = Return (PyStr "'hello'")
  /\ typed_value (dq " 'hello' ") = Return (PyStr "'hello'").
Proof.
  split; [|split; [|split; [|split; [|split]]]].
  - destruct (proj2 (typed_value_strips_one_quote_layer
                       Char.squote "hello" "" "hello" "" (or_introl eq_refl))
                    eq_refl eq_refl eq_refl eq_refl) as (_ & _ & H & _).
    exact (H eq_refl eq_refl).
  - destruct (proj2 (typed_value_strips_one_quote_layer
                       Char.dquote "hello" "" "hello" "" (or_intror eq_refl))
                    eq_refl eq_refl eq_refl eq_refl) as (_ & _ & H & _).
    exact (H eq_refl eq_refl).
  - destruct (proj2 (typed_value_strips_one_quote_layer
                       Char.squote "  hello world  " "  " "hello world" "  "
                       (or_introl eq_refl))
                    eq_refl eq_refl eq_refl eq_refl) as (_ & _ & H & _).
    exact (H eq_refl eq_refl).
  - destruct (proj2 (typed_value_strips_one_quote_layer
                       Char.dquote "  Yes " "  " "Yes" " " (or_intror eq_refl))
                    eq_refl eq_refl eq_refl eq_refl) as (_ & _ & H & _).
    exact (H eq_refl eq_refl).
  - destruct (proj2 (typed_value_strips_one_quote_layer
                       Char.squote "'hello'" "" "'hello'" "" (or_introl eq_refl))
                    eq_refl eq_refl eq_refl eq_refl) as (_ & _ & _ & H).
    exact (H eq_refl eq_refl eq_refl).
  - destruct (proj2 (typed_value_strips_one_quote_layer
                       Char.dquote " 'hello' " " " "'hello'" " " (or_intror eq_refl))
                    eq_refl eq_refl eq_refl eq_refl) as (_ & _ & _ & H).
    exact (H eq_refl eq_refl eq_refl).
Defined.

(** C7.  A string with an [=] but neither semicolon nor comma is never
    made a mapping: [typed_value] returns it as text, quotes removed. *)
Theorem equals_without_semicolon_stays_text (value : string) :
  Str.contains Char.equals value = true ->
  Str.contains Char.semicolon value = false ->
  Str.contains Char.comma value = false ->
  typed_value value = Return (PyStr (unquote value))
  /\ forall d, typed_value value <> Return (PyDict d).
Proof.
  intros He Hs Hc.
  assert (typed_value value = Return (PyStr (unquote value))) as E.
  { rewrite typed_value_leaf by (auto; now rewrite Hs).
    rewrite leaf_with_equals; [reflexivity|].
    now rewrite unquote_contains by reflexivity. }
  split; [exact E|]. intros d. rewrite E. discriminate.
Qed.

Lemma equals_without_semicolon_stays_text_witness :
  typed_value "a=1" = Return (PyStr "a=1")
  /\ forall d, typed_value "a=1" <> Return (PyDict d).
Proof.
  apply (equals_without_semicolon_stays_text "a=1"); reflexivity.
Defined.

(** C8.  Every run that ends in [exit_json] reports [changed] as false. *)
Theorem changed_is_false (fs : FileSystem) (p : Params) (r : Result) :
  main fs p = exit_json r -> changed r = false.
Proof.
  unfold main. destruct (fs (path p)) as [file|]; [|discriminate].
  destruct (Str.nonempty (prefix p) && negb (regex_key_match (prefix p)));
    [discriminate|].
  intros H. apply read_file_exit in H as (lines & _ & H).
  eapply read_lines_changed; eauto.
Qed.

Lemma changed_is_false_witness :
  exists r, main sample_fs sample_params = exit_json r /\ changed r = false.
Proof.
  eexists. split; [vm_compute; reflexivity|].
  apply (changed_is_false sample_fs sample_params). vm_compute. reflexivity.
Defined.

(** C9.  When no line of the file matches the assignment pattern, or the
    module runs in check mode, a run that ends in [exit_json] carries no
    [vars] entry at all. *)
Theorem no_vars_without_assignment_or_in_check_mode
    (fs : FileSystem) (p : Params) (r : Result) :
  main fs p = exit_json r ->
  check_mode p = true
  \/ (forall lines broken,
         fs (path p) = Some (Readable lines broken) ->
         Forall (fun line => regex_key_value_match line = None) lines) ->
  vars r = None.
Proof.
  unfold main. intros Hm H. destruct (fs (path p)) as [file|]; [|discriminate].
  destruct (Str.nonempty (prefix p) && negb (regex_key_match (prefix p)));
    [discriminate|].
  apply read_file_exit in Hm as (lines & -> & Hm).
  apply (read_lines_no_vars p lines) with (variables := []); [|assumption].
  destruct H as [H|H]; [now left | right; now apply (H lines None)].
Qed.

Lemma no_vars_without_assignment_or_in_check_mode_witness :
  exists r,
    main sample_fs
         {| path := "/root/my_conf.sh"; prefix := ""; lower := false; check_mode := true |}
    = exit_json r
    /\ vars r = None.
Proof.
  eexists. split; [vm_compute; reflexivity|].
  apply (no_vars_without_assignment_or_in_check_mode
           sample_fs
           {| path := "/root/my_conf.sh"; prefix := ""; lower := false; check_mode := true |}).
  - vm_compute. reflexivity.
  - left. reflexivity.
Defined.

(** C10.  The boolean tokens are those of Ansible's [BOOLEANS], the bare
    digits [1] and [0] among them.  Every string that is one of them up to
    case is typed as a boolean, so [1] gives true and not the text [1];
    every other numeric string stays text. *)
Theorem booleans_include_digits (s : string) :
  BOOLEANS = ["y"; "yes"; "on"; "1"; "true"; "t"; "n"; "no"; "off"; "0"; "false"; "f"]
  /\ (mem (Str.lower s) BOOLEANS = true ->
      typed_value s = Return (PyBool (mem (Str.lower s) BOOLEANS_TRUE)))
  /\ typed_value "1" = Return (PyBool true)
  /\ typed_value "0" = Return (PyBool false)
  /\ (numeric_string s = true -> s <> "0" -> s <> "1" ->
      typed_value s = Return (PyStr s)).
Proof.
  repeat split; try reflexivity.
  - intros H. pose proof (token_shape _ H) as (Hc & Hs & _).
    rewrite Str_lower_contains_low in Hc, Hs by (vm_compute; lia).
    rewrite typed_value_leaf by (auto; now rewrite Hs).
    rewrite (token_not_quoted s H). unfold leaf. now rewrite H.
  - intros Hn H0 H1. pose proof (numeric_string_shape s Hn) as (Hl & Hq & Hc & Hs).
    rewrite typed_value_leaf by (auto; now rewrite Hs).
    rewrite Hq. unfold leaf. rewrite Hl.
    destruct (mem s BOOLEANS) eqn:E; [|reflexivity].
    destruct (numeric_token s Hn E); contradiction.
Qed.

Lemma booleans_include_digits_witness :
  typed_value "Yes" = Return (PyBool true)
  /\ typed_value "-10.5" = Return (PyStr "-10.5").
Proof.
  split.
  - apply (proj1 (proj2 (booleans_include_digits "Yes"))). reflexivity.
  - apply (proj2 (proj2 (proj2 (proj2 (booleans_include_digits "-10.5"))))).
    + reflexivity.
    + discriminate.
    + discriminate.
Defined.

End Claims.

(* ================================================================= *)
(** * Dictionaries *)

Section DictFacts.
Context {V : Type}.

Lemma dict_get_set_same (d : dict V) k v : dict_get (dict_set d k v) k = Some v.
Proof.
  induction d as [|[k' v'] d IH]; simpl.
  - now rewrite String.eqb_refl.
  - destruct (String.eqb k' k) eqn:E; simpl; rewrite E; [reflexivity | exact IH].
Qed.

Lemma dict_get_set_other (d : dict V) k v k' :
  k' <> k -> dict_get (dict_set d k v) k' = dict_get d k'.
Proof.
  intros Hne. induction d as [|[k0 v0] d IH]; simpl.
  - apply String.eqb_neq in Hne. rewrite String.eqb_sym. now rewrite Hne.
  - destruct (String.eqb k0 k) eqn:E; simpl.
    + apply String.eqb_eq in E. subst k0.
      apply String.eqb_neq in Hne. rewrite String.eqb_sym. now rewrite Hne.
    + now rewrite IH.
Qed.

Lemma dict_keys_set (d : dict V) k v x :
  In x (dict_keys (dict_set d k v)) <-> In x (dict_keys d) \/ x = k.
Proof.
  unfold dict_keys. induction d as [|[k0 v0] d IH]; simpl.
  - split; [intros [H|[]]; auto | intros [[]|H]; auto].
  - destruct (String.eqb k0 k) eqn:E; simpl.
    + apply String.eqb_eq in E. subst k0. split; [tauto|].
      intros [[H|H]|H]; auto.
    + rewrite IH. tauto.
Qed.

Lemma dict_values_set (P : V -> Prop) (d : dict V) k v :
  Forall P (map snd d) -> P v -> Forall P (map snd (dict_set d k v)).
Proof.
  intros Hd Hv. induction d as [|[k0 v0] d IH]; simpl.
  - constructor; [assumption | constructor].
  - inversion Hd; subst. destruct (String.eqb k0 k); simpl; constructor; auto.
Qed.

Lemma dict_get_update_other (kvs : list (string * V)) k :
  Forall (fun kv => fst kv <> k) kvs ->
  forall d, dict_get (dict_update d kvs) k = dict_get d k.
Proof.
  unfold dict_update. induction 1 as [|kv kvs Hkv _ IH]; intros d; simpl; [reflexivity|].
  rewrite IH. apply dict_get_set_other. congruence.
Qed.

Lemma dict_keys_update (kvs : list (string * V)) x :
  forall d, In x (dict_keys (dict_update d kvs))
            <-> In x (dict_keys d) \/ In x (map fst kvs).
Proof.
  unfold dict_update. induction kvs as [|kv kvs IH]; intros d; simpl; [tauto|].
  rewrite IH, dict_keys_set. split; intros H; intuition auto.
Qed.

Lemma dict_values_update (P : V -> Prop) (kvs : list (string * V)) :
  Forall P (map snd kvs) ->
  forall d, Forall P (map snd d) -> Forall P (map snd (dict_update d kvs)).
Proof.
  unfold dict_update. induction kvs as [|kv kvs IH]; intros H d Hd; simpl; [assumption|].
  inversion H; subst. apply IH; [assumption|]. now apply dict_values_set.
Qed.

End DictFacts.

(* ================================================================= *)
(** * What the line loop stores *)

Section LineLoop.
Import StrFacts.

Lemma mapM_return_inv {A B : Type} (f : A -> outcome B) l ys :
  mapM f l = Return ys -> Forall2 (fun x y => f x = Return y) l ys.
Proof.
  revert ys. induction l as [|x l IH]; simpl; intros ys.
  - intros [= <-]. constructor.
  - destruct (f x) as [y|e|] eqn:Ex; simpl; try discriminate.
    destruct (mapM f l) as [ys'|e|]; simpl; try discriminate.
    intros [= <-]. constructor; auto.
Qed.

Lemma mapM_raise_inv {A B : Type} (f : A -> outcome B) l e :
  mapM f l = Raise e -> exists x, In x l /\ f x = Raise e.
Proof.
  induction l as [|x l IH]; simpl; [discriminate|].
  destruct (f x) as [y|e'|] eqn:Ex; simpl; try discriminate.
  - destruct (mapM f l) as [ys'|e'|]; simpl; try discriminate.
    intros [= <-]. destruct IH as (x' & Hx & Hf); [reflexivity|]. eauto.
  - intros [= <-]. eauto.
Qed.

(** A successful pass over the lines stored one entry per assignment
    line, in file order. *)
Lemma read_lines_exit p lines :
  forall variables attached r,
    read_lines p lines variables attached = exit_json r ->
    exists kvs,
      Forall2 (entry_of p) (filter is_assignment lines) kvs
      /\ r = result_of (dict_update variables kvs)
                       (attached || (negb (check_mode p) && some_items kvs)).
Proof.
  induction lines as [|line lines IH]; simpl; intros variables attached r.
  - intros [= <-]. exists []. split; [constructor|].
    simpl. now rewrite andb_false_r, orb_false_r.
  - unfold is_assignment at 1.
    destruct (regex_key_value_match line) as [[k v]|] eqn:E; [|apply IH].
    destruct (regex_key_match (compose_key p (Str.strip k))) eqn:Hk; simpl;
      [|discriminate].
    destruct (typed_value (Str.strip v)) as [tv|e|] eqn:Ht; try discriminate.
    intros H. apply IH in H as (kvs & HF & ->).
    exists ((compose_key p (Str.strip k), tv) :: kvs). split.
    + constructor; [|assumption]. exists k, v. auto.
    + simpl. f_equal.
      destruct attached, (check_mode p), (some_items kvs); reflexivity.
Qed.

Lemma read_lines_entries p lines :
  forall kvs variables attached,
    Forall2 (entry_of p) (filter is_assignment lines) kvs ->
    read_lines p lines variables attached
    = exit_json (result_of (dict_update variables kvs)
                           (attached || (negb (check_mode p) && some_items kvs))).
Proof.
  induction lines as [|line lines IH]; simpl; intros kvs variables attached HF.
  - inversion HF; subst. simpl. now rewrite andb_false_r, orb_false_r.
  - unfold is_assignment in HF at 1.
    destruct (regex_key_value_match line) as [[k v]|] eqn:E; [|now apply IH].
    inversion HF as [|? kv ? kvs' (k' & v' & Hm & Hkey & Hok & Ht) HF']; subst.
    rewrite E in Hm. injection Hm as <- <-.
    rewrite <- Hkey, Hok, Ht. simpl.
    rewrite (IH kvs' _ _ HF'). simpl.
    destruct attached, (check_mode p), (some_items kvs'); reflexivity.
Qed.

End LineLoop.

(* ================================================================= *)
(** * More about the line loop *)

Section LineLoopFacts.
Import StrFacts.

Lemma read_lines_filter p lines :
  forall variables attached,
    read_lines p (filter is_assignment lines) variables attached
    = read_lines p lines variables attached.
Proof.
  induction lines as [|line lines IH]; intros variables attached; simpl; [reflexivity|].
  unfold is_assignment at 1.
  destruct (regex_key_value_match line) as [[k v]|] eqn:E; [|apply IH].
  simpl. rewrite E.
  destruct (negb (regex_key_match (compose_key p (Str.strip k)))); [reflexivity|].
  destruct (typed_value (Str.strip v)); try reflexivity. apply IH.
Qed.

Lemma compose_key_check_mode b p k : compose_key (with_check_mode b p) k = compose_key p k.
Proof. reflexivity. Qed.

Lemma read_lines_check_mode p lines :
  forall variables attached,
    read_lines (with_check_mode true p) lines variables false
    = drop_vars (read_lines p lines variables attached).
Proof.
  induction lines as [|line lines IH]; intros variables attached; simpl; [reflexivity|].
  destruct (regex_key_value_match line) as [[k v]|] eqn:E; [|apply IH].
  rewrite compose_key_check_mode.
  destruct (negb (regex_key_match (compose_key p (Str.strip k)))); [reflexivity|].
  destruct (typed_value (Str.strip v)); try reflexivity. apply IH.
Qed.

(** When every key is valid the loop never ends in [fail_json]. *)
Lemma read_lines_keys_valid p lines :
  (forall k, key_shaped k = true -> regex_key_match (compose_key p k) = true) ->
  forall variables attached msg r,
    read_lines p lines variables attached <> fail_json msg r.
Proof.
  intros Hok. induction lines as [|line lines IH]; intros variables attached msg r; simpl.
  - discriminate.
  - destruct (regex_key_value_match line) as [[k v]|] eqn:E; [|apply IH].
    pose proof (regex_key_value_key_shaped _ _ _ E) as Hk.
    rewrite (key_shaped_strip k Hk), (Hok k Hk). simpl.
    destruct (typed_value (Str.strip v)); try discriminate. apply IH.
Qed.

(** When every key is invalid the loop ends at the first assignment
    line, with the result as it was. *)
Lemma read_lines_keys_invalid p lines :
  (forall k, key_shaped k = true -> regex_key_match (compose_key p k) = false) ->
  forall variables attached msg r,
    read_lines p lines variables attached = fail_json msg r ->
    r = result_of variables attached /\ exists key, msg = msg_invalid_key key.
Proof.
  intros Hbad. induction lines as [|line lines IH]; intros variables attached msg r; simpl.
  - discriminate.
  - destruct (regex_key_value_match line) as [[k v]|] eqn:E; [|apply IH].
    pose proof (regex_key_value_key_shaped _ _ _ E) as Hk.
    rewrite (key_shaped_strip k Hk), (Hbad k Hk). simpl.
    intros [= <- <-]. eauto.
Qed.

Lemma read_lines_fail p lines variables attached msg r :
  Str.nonempty (prefix p) && negb (regex_key_match (prefix p)) = false ->
  read_lines p lines variables attached = fail_json msg r ->
  Str.contains Char.newline (prefix p) = true
  /\ r = result_of variables attached
  /\ exists key, msg = msg_invalid_key key.
Proof.
  intros Hp H. destruct (Str.contains Char.newline (prefix p)) eqn:Hn.
  - split; [reflexivity|]. apply (read_lines_keys_invalid p lines); [|assumption].
    intros k Hk. now rewrite (composed_key_valid p k Hp Hk), Hn.
  - exfalso. apply (read_lines_keys_valid p lines) in H; [assumption|].
    intros k Hk. now rewrite (composed_key_valid p k Hp Hk), Hn.
Qed.

(** A pattern-valid string without a newline has the shape of a key. *)
Lemma key_tail_match_no_newline s :
  key_tail_match s = true -> Str.contains Char.newline s = false ->
  all_chars is_key_char s = true.
Proof.
  induction s as [|c s IH]; simpl; [reflexivity|].
  destruct (is_key_char c) eqn:Hc; simpl.
  - intros H1 H2. apply orb_false_iff in H2 as [_ H2]. auto.
  - intros H1 H2. apply andb_true_iff in H1 as [H1 _]. rewrite H1 in H2. discriminate.
Qed.

Lemma all_key_chars_no_newline s :
  all_chars is_key_char s = true -> Str.contains Char.newline s = false.
Proof. now apply (all_chars_contains is_key_char). Qed.

Lemma all_chars_append f s t :
  all_chars f (s ++ t) = all_chars f s && all_chars f t.
Proof.
  induction s as [|c s IH]; simpl; [reflexivity|]. now rewrite IH, andb_assoc.
Qed.

Lemma key_shaped_all k :
  key_shaped k = true -> all_chars is_key_char k = true.
Proof.
  destruct k as [|c body]; simpl; [discriminate|].
  intros H. apply andb_true_iff in H as [H1 H2].
  now rewrite (is_key_start_char c H1).
Qed.

(** With a prefix that passed its check and has no newline, a composed
    key has the shape of a key. *)
Lemma composed_key_shaped p k :
  Str.nonempty (prefix p) && negb (regex_key_match (prefix p)) = false ->
  Str.contains Char.newline (prefix p) = false ->
  key_shaped k = true ->
  key_shaped (compose_key p k) = true.
Proof.
  intros Hp Hn Hk. unfold compose_key.
  assert (key_shaped (if Str.nonempty (prefix p) then (prefix p ++ k)%string else k) = true) as E.
  { destruct (prefix p) as [|c s] eqn:Ep; simpl in *; [assumption|].
    apply negb_false_iff in Hp. apply andb_true_iff in Hp as [H1 H2].
    rewrite H1. simpl. rewrite all_chars_append.
    apply orb_false_iff in Hn as [_ Hn].
    rewrite (key_tail_match_no_newline s H2 Hn). simpl.
    now apply key_shaped_all. }
  destruct (lower p); [rewrite key_shaped_lower|]; exact E.
Qed.

(** Every entry the loop stores has a key of the key shape. *)
Lemma entry_key_shaped p line kv :
  Str.nonempty (prefix p) && negb (regex_key_match (prefix p)) = false ->
  entry_of p line kv -> key_shaped (fst kv) = true.
Proof.
  intros Hp (k & v & Hm & Hkey & Hok & _).
  pose proof (regex_key_value_key_shaped _ _ _ Hm) as Hk.
  rewrite Hkey in *. rewrite (key_shaped_strip k Hk) in *.
  apply composed_key_shaped; auto.
  rewrite (composed_key_valid p k Hp Hk) in Hok.
  now apply negb_true_iff in Hok.
Qed.

Lemma main_exit fs p r :
  main fs p = exit_json r <->
  exists lines kvs,
    fs (path p) = Some (Readable lines None)
    /\ Str.nonempty (prefix p) && negb (regex_key_match (prefix p)) = false
    /\ Forall2 (entry_of p) (filter is_assignment lines) kvs
    /\ r = {| changed := false;
              vars := if negb (check_mode p) && some_items kvs
                      then Some (dict_of_items kvs) else None |}.
Proof.
  unfold main. split.
  - destruct (fs (path p)) as [file|]; [|discriminate].
    destruct (Str.nonempty (prefix p) && negb (regex_key_match (prefix p))) eqn:Hp;
      [discriminate|].
    intros H. apply read_file_exit in H as (lines & -> & H).
    apply read_lines_exit in H as (kvs & HF & ->).
    exists lines, kvs. repeat split; auto.
  - intros (lines & kvs & -> & -> & HF & ->). simpl.
    rewrite (read_lines_entries p lines kvs [] false HF). reflexivity.
Qed.

End LineLoopFacts.

(* ================================================================= *)
(** * The three paths of typed_value *)

Section Paths.
Import Str StrFacts.

Lemma scalar_leaf u : scalar (leaf u) = true.
Proof. unfold leaf. destruct (mem (lower u) BOOLEANS); reflexivity. Qed.

(** The list path: the typed pieces, then the dict test on the list. *)
Lemma typed_value_comma_path value :
  contains Char.comma value = true ->
  typed_value value
  = l <- mapM (fun i => typed_value (strip i)) (split Char.comma (unquote value)) ;;
    if existsb (py_eq_str (String Char.semicolon "")) l
       && existsb (py_eq_str (String Char.equals "")) l
    then Raise AttributeError
    else Return (PyList l).
Proof.
  intros Hc. rewrite typed_value_unfold. unfold typed_value_body, classify, handle_list.
  rewrite unquote_contains by reflexivity. rewrite Hc.
  destruct (mapM _ _) as [l|e|]; simpl; try reflexivity.
  rewrite handle_dict_list.
  destruct (existsb (py_eq_str (String Char.semicolon "")) l
            && existsb (py_eq_str (String Char.equals "")) l); reflexivity.
Qed.

Lemma wellformed_values_scalar pieces kvs :
  Forall (fun p => contains Char.comma p = false /\ contains Char.semicolon p = false)
         pieces ->
  Forall2 (fun piece kv =>
             exists l r, split Char.equals (unquote (strip piece)) = [l; r]
                         /\ fst kv = strip l
                         /\ typed_value (strip r) = Return (snd kv))
          pieces kvs ->
  Forall (fun v => scalar v = true) (map snd kvs).
Proof.
  intros Hcl HF. induction HF as [|p kv pieces kvs (l & r & E & _ & Ht) _ IH]; simpl.
  - constructor.
  - inversion Hcl as [|? ? [Hc Hs] Hrest]; subst. constructor; [|auto].
    assert (In r (split Char.equals (unquote (strip p)))) as Hr
      by (rewrite E; simpl; auto).
    rewrite typed_value_leaf in Ht.
    + injection Ht as <-. apply scalar_leaf.
    + apply (stripped_piece_contains Char.equals _ (unquote (strip p))); auto.
      now apply piece_item_contains.
    + rewrite (stripped_piece_contains Char.equals Char.semicolon (unquote (strip p)));
        auto. now apply piece_item_contains.
Qed.

(** The mapping path either stores one scalar per piece or raises. *)
Lemma typed_value_mapping_outcome value :
  contains Char.comma value = false ->
  contains Char.semicolon value = true ->
  contains Char.equals value = true ->
  (exists kvs, typed_value value = Return (PyDict (dict_of_items kvs))
               /\ Forall (fun v => scalar v = true) (map snd kvs))
  \/ (exists e, typed_value value = Raise e /\ (e = ValueError \/ e = AttributeError)).
Proof.
  intros Hc Hs He.
  assert (contains Char.comma (unquote value) = false) as Hc'
    by now rewrite unquote_contains by reflexivity.
  pose proof (mapping_pieces_clean _ Hc') as Hcl.
  destruct (Forall_Exists_dec (fun p => count Char.equals p = 1)
              (fun p => Nat.eq_dec (count Char.equals p) 1)
              (split Char.semicolon (unquote value))) as [Hall|Hex].
  - left. rewrite typed_value_mapping_path by assumption.
    destruct (dict_loop_wellformed (split Char.semicolon (unquote value)))
      with (acc := @nil (string * TypedValue)) as (kvs & Hf & H2).
    + rewrite Forall_forall in *. intros p Hp. destruct (Hcl p Hp). auto.
    + exists kvs. rewrite Hf. split; [reflexivity|].
      eapply wellformed_values_scalar; eauto.
  - right. now apply typed_value_malformed_mapping.
Qed.

(** Without a comma: a scalar, a dict of scalars, or an exception. *)
Lemma typed_value_comma_free value :
  contains Char.comma value = false ->
  (exists v, typed_value value = Return v /\ flat v = true)
  \/ (exists e, typed_value value = Raise e /\ (e = ValueError \/ e = AttributeError)).
Proof.
  intros Hc.
  destruct (contains Char.semicolon value && contains Char.equals value) eqn:Hm.
  - apply andb_true_iff in Hm as [Hs He].
    destruct (typed_value_mapping_outcome value Hc Hs He) as [(kvs & E & Hv)|H];
      [left | now right].
    exists (PyDict (dict_of_items kvs)). split; [assumption|]. simpl.
    apply forallb_forall. apply Forall_forall.
    apply (dict_values_update (fun v => scalar v = true) kvs Hv []). constructor.
  - left. exists (leaf (unquote value)). split; [now apply typed_value_leaf|].
    unfold leaf. destruct (mem (lower (unquote value)) BOOLEANS); reflexivity.
Qed.

Lemma comma_piece_free value p :
  In p (split Char.comma value) -> contains Char.comma (strip p) = false.
Proof. intros Hp. now apply (stripped_piece_no_sep Char.comma value). Qed.

End Paths.

(* ================================================================= *)
(** * The two patterns *)

Section Patterns.
Import StrFacts.

Lemma dot_star_append v rest :
  Str.contains Char.newline v = false ->
  rest = EmptyString \/ Str.startswith Char.newline rest = true ->
  dot_star (v ++ rest) = v.
Proof.
  intros Hv Hr. induction v as [|c v IH]; simpl in *.
  - destruct Hr as [->|Hr]; [reflexivity|].
    destruct rest as [|a rest]; [reflexivity|]. simpl in *. now rewrite Hr.
  - apply orb_false_iff in Hv as [Hc Hv]. rewrite Hc. now rewrite IH.
Qed.

Lemma dot_star_split s :
  exists rest,
    s = (dot_star s ++ rest)%string
    /\ (rest = EmptyString \/ Str.startswith Char.newline rest = true)
    /\ Str.contains Char.newline (dot_star s) = false.
Proof.
  induction s as [|c s (rest & E & Hr & Hn)]; simpl.
  - exists EmptyString. auto.
  - destruct (Ascii.eqb c Char.newline) eqn:Hc.
    + exists (String c s). simpl. rewrite Hc. auto.
    + exists rest. simpl. rewrite Hc, Hn. rewrite <- E. auto.
Qed.

Lemma key_tail_value_append body v rest :
  all_chars is_key_char body = true ->
  Str.contains Char.newline v = false ->
  rest = EmptyString \/ Str.startswith Char.newline rest = true ->
  key_tail_value (body ++ String Char.equals (v ++ rest)) = Some (body, v).
Proof.
  intros Hb Hv Hr. induction body as [|c body IH]; simpl in *.
  - now rewrite dot_star_append.
  - apply andb_true_iff in Hb as [Hc Hb]. rewrite Hc. now rewrite IH.
Qed.

Lemma key_tail_value_split s body v :
  key_tail_value s = Some (body, v) ->
  exists rest,
    s = (body ++ String Char.equals (v ++ rest))%string
    /\ (rest = EmptyString \/ Str.startswith Char.newline rest = true)
    /\ Str.contains Char.newline v = false.
Proof.
  revert body. induction s as [|c s IH]; simpl; intros body; [discriminate|].
  destruct (is_key_char c) eqn:Hc.
  - destruct (key_tail_value s) as [[b' v']|]; [|discriminate].
    intros [= <- <-]. destruct (IH b' eq_refl) as (rest & E & Hr & Hn).
    exists rest. simpl. rewrite <- E. auto.
  - destruct (Ascii.eqb c Char.equals) eqn:He; [|discriminate].
    intros [= <- <-]. apply Ascii.eqb_eq in He. subst c.
    destruct (dot_star_split s) as (rest & E & Hr & Hn).
    exists rest. simpl. rewrite <- E. auto.
Qed.

Lemma key_tail_match_cases s :
  key_tail_match s = true <->
  all_chars is_key_char s = true
  \/ exists body, all_chars is_key_char body = true
                  /\ s = (body ++ String Char.newline EmptyString)%string.
Proof.
  induction s as [|c s IH]; simpl.
  - split; auto.
  - destruct (is_key_char c) eqn:Hc; simpl.
    + rewrite IH. split.
      * intros [H|(body & Hb & ->)]; [now left|].
        right. exists (String c body). simpl. now rewrite Hc.
      * intros [H|(body & Hb & E)]; [now left|].
        destruct body as [|b body]; simpl in *.
        -- injection E as -> ->. discriminate Hc.
        -- injection E as -> ->. apply andb_true_iff in Hb as [_ Hb]. eauto.
    + split.
      * intros H. apply andb_true_iff in H as [H1 H2].
        apply Ascii.eqb_eq in H1. subst c.
        destruct s; [|discriminate]. right. exists EmptyString. auto.
      * intros [H|(body & Hb & E)]; [discriminate|].
        destruct body as [|b body]; simpl in *.
        -- injection E as E1 E2. subst c s. reflexivity.
        -- injection E as E1 E2. subst b. apply andb_true_iff in Hb as [Hb _]. congruence.
Qed.

Lemma char_lower_idempotent c : Char.lower (Char.lower c) = Char.lower c.
Proof. all_ascii c. Qed.

Lemma lower_idempotent s : Str.lower (Str.lower s) = Str.lower s.
Proof.
  induction s as [|c s IH]; simpl; [reflexivity|].
  now rewrite char_lower_idempotent, IH.
Qed.

Lemma compose_key_form p k :
  compose_key p k
  = if lower p then Str.lower (prefix p ++ k) else (prefix p ++ k)%string.
Proof.
  unfold compose_key. destruct (prefix p); reflexivity.
Qed.

Lemma Forall2_In_l {A B : Type} (R : A -> B -> Prop) l l' x :
  Forall2 R l l' -> In x l -> exists y, In y l' /\ R x y.
Proof.
  induction 1 as [|a b l l' Hab _ IH]; simpl; [contradiction|].
  intros [<-|H]; [eauto|]. destruct (IH H) as (y & Hy & Hr). eauto.
Qed.

Lemma Forall2_In_r {A B : Type} (R : A -> B -> Prop) l l' y :
  Forall2 R l l' -> In y l' -> exists x, In x l /\ R x y.
Proof.
  induction 1 as [|a b l l' Hab _ IH]; simpl; [contradiction|].
  intros [<-|H]; [eauto|]. destruct (IH H) as (x & Hx & Hr). eauto.
Qed.

End Patterns.

(* ================================================================= *)
(** * Exceptions *)

Section Exceptions.
Import StrFacts.

(** [typed_value] raises nothing but [ValueError] and [AttributeError]. *)
Lemma raise_kinds value e :
  typed_value value = Raise e -> e = ValueError \/ e = AttributeError.
Proof.
  intros H. destruct (Str.contains Char.comma value) eqn:Hc.
  - rewrite typed_value_comma_path in H by assumption.
    destruct (mapM _ _) as [l|e0|] eqn:Em; simpl in H; try discriminate.
    + destruct (_ && _); [|discriminate]. injection H as <-. now right.
    + injection H as ->. apply mapM_raise_inv in Em as (piece & Hp & Ht).
      destruct (typed_value_comma_free (Str.strip piece)) as [(v & Hv & _)|(e' & He & Hk)].
      * eapply comma_piece_free; eauto.
      * congruence.
      * congruence.
  - destruct (typed_value_comma_free value Hc) as [(v & Hv & _)|(e' & He & Hk)];
      congruence.
Qed.

Lemma read_lines_uncaught p lines :
  forall variables attached e,
    read_lines p lines variables attached = uncaught e ->
    e = ValueError \/ e = AttributeError.
Proof.
  induction lines as [|line lines IH]; simpl; intros variables attached e.
  - discriminate.
  - destruct (regex_key_value_match line) as [[k v]|]; [|apply IH].
    destruct (negb (regex_key_match (compose_key p (Str.strip k)))); [discriminate|].
    destruct (typed_value (Str.strip v)) as [tv|e0|] eqn:Ht.
    + apply IH.
    + intros [= <-]. eapply raise_kinds; eauto.
    + exfalso. eapply typed_value_terminates; eauto.
Qed.

End Exceptions.

(* ================================================================= *)
(** * More properties of main *)

Section MainProperties.
Import StrFacts.

(** X1.  A run ends in [exit_json] exactly when the path is a file that
    opens and reads to its end without error, the prefix passes its
    check, and every assignment line has a valid composed key and a value
    [typed_value] returns on.  The result then
    has [changed] false, and its [vars], outside check mode and with at
    least one assignment line, is the dictionary of the entries of the
    assignment lines stored in file order. *)
Theorem main_exit_json_iff (fs : FileSystem) (p : Params) (r : Result) :
  main fs p = exit_json r <->
  exists lines kvs,
    fs (path p) = Some (Readable lines None)
    /\ Str.nonempty (prefix p) && negb (regex_key_match (prefix p)) = false
    /\ Forall2 (entry_of p) (filter is_assignment lines) kvs
    /\ r = {| changed := false;
              vars := if negb (check_mode p) && some_items kvs
                      then Some (dict_of_items kvs) else None |}.
Proof. apply main_exit. Qed.

Lemma main_exit_json_iff_witness :
  main (one_file "/f" [nl "# x"; nl "A=1"; nl "B=u,v"])
       {| path := "/f"; prefix := "P_"; lower := true; check_mode := false |}
  = exit_json {| changed := false;
                 vars := Some [("p_a", PyBool true);
                               ("p_b", PyList [PyStr "u"; PyStr "v"])] |}.
Proof.
  apply (proj2 (main_exit_json_iff
                  (one_file "/f" [nl "# x"; nl "A=1"; nl "B=u,v"])
                  {| path := "/f"; prefix := "P_"; lower := true; check_mode := false |}
                  _)).
  exists [nl "# x"; nl "A=1"; nl "B=u,v"],
         [("p_a", PyBool true); ("p_b", PyList [PyStr "u"; PyStr "v"])].
  repeat split.
  constructor; [exists "A", "1"; repeat split|].
  constructor; [exists "B", "u,v"; repeat split|].
  constructor.
Defined.

(** X2.  A run that ends in [fail_json] never carries [vars], and it
    failed for one of three reasons: the path is no file; the prefix
    failed its check; or the prefix has a newline in it, which passes the
    prefix check at the end of the prefix but breaks every composed key. *)
Theorem main_fail_json_cases
    (fs : FileSystem) (p : Params) (msg : string) (r : Result) :
  main fs p = fail_json msg r ->
  r = {| changed := false; vars := None |}
  /\ ((fs (path p) = None /\ msg = msg_not_a_file (path p))
      \/ (regex_key_match (prefix p) = false /\ msg = msg_invalid_prefix (prefix p))
      \/ (Str.contains Char.newline (prefix p) = true
          /\ exists key, msg = msg_invalid_key key)).
Proof.
  unfold main. destruct (fs (path p)) as [file|].
  - destruct (Str.nonempty (prefix p) && negb (regex_key_match (prefix p))) eqn:Hp.
    + intros [= <- <-]. split; [reflexivity|]. right. left.
      apply andb_true_iff in Hp as [_ Hp]. apply negb_true_iff in Hp. auto.
    + intros H. apply read_file_fail in H as (lines & broken & _ & H).
      apply read_lines_fail in H as (Hn & -> & Hk); auto.
  - intros [= <- <-]. auto.
Qed.

Lemma main_fail_json_cases_witness :
  main (one_file "/f" [nl "A=1"; nl "B=2"])
       {| path := "/f"; prefix := nl "P_"; lower := false; check_mode := false |}
  = fail_json (msg_invalid_key (nl "P_" ++ "A")) {| changed := false; vars := None |}
  /\ {| changed := false; vars := None |} = {| changed := false; vars := None |}
  /\ Str.contains Char.newline (nl "P_") = true.
Proof.
  split; [reflexivity|].
  destruct (main_fail_json_cases
              (one_file "/f" [nl "A=1"; nl "B=2"])
              {| path := "/f"; prefix := nl "P_"; lower := false; check_mode := false |}
              (msg_invalid_key (nl "P_" ++ "A"))
              {| changed := false; vars := None |} eq_refl) as [Hr _].
  split; [exact Hr | reflexivity].
Defined.

(** X3.  Every key of the [vars] of a successful run has the shape of a
    key: a letter or underscore, then letters, digits, underscores and
    hyphens, and nothing else. *)
Theorem vars_keys_are_key_shaped
    (fs : FileSystem) (p : Params) (r : Result) (d : dict TypedValue) :
  main fs p = exit_json r ->
  vars r = Some d ->
  Forall (fun key => key_shaped key = true) (dict_keys d).
Proof.
  intros H Hd. apply main_exit in H as (lines & kvs & Hfs & Hp & HF & ->).
  simpl in Hd. destruct (negb (check_mode p) && some_items kvs); [|discriminate].
  injection Hd as <-. apply Forall_forall. intros key Hk.
  apply (dict_keys_update kvs key []) in Hk as [[]|Hk].
  apply in_map_iff in Hk as (kv & <- & Hkv).
  destruct (Forall2_In_r _ _ _ _ HF Hkv) as (line & _ & He).
  eapply entry_key_shaped; eauto.
Qed.

Lemma vars_keys_are_key_shaped_witness :
  dict_keys
    [("FOO", PyList [PyBool true; PyStr "2"; PyStr "3"]);
     ("BAR", PyDict [("a", PyBool true); ("b", PyStr "2")]);
     ("BAZ", PyBool true);
     ("QUX", PyStr "hello world")] = ["FOO"; "BAR"; "BAZ"; "QUX"]
  /\ Forall (fun key => key_shaped key = true) ["FOO"; "BAR"; "BAZ"; "QUX"].
Proof.
  split; [reflexivity|].
  apply (vars_keys_are_key_shaped sample_fs sample_params
           {| changed := false;
              vars := Some [("FOO", PyList [PyBool true; PyStr "2"; PyStr "3"]);
                            ("BAR", PyDict [("a", PyBool true); ("b", PyStr "2")]);
                            ("BAZ", PyBool true);
                            ("QUX", PyStr "hello world")] |}
           [("FOO", PyList [PyBool true; PyStr "2"; PyStr "3"]);
            ("BAR", PyDict [("a", PyBool true); ("b", PyStr "2")]);
            ("BAZ", PyBool true);
            ("QUX", PyStr "hello world")]).
  - vm_compute. reflexivity.
  - reflexivity.
Defined.

(** X4.  The last assignment wins: in the [vars] of a successful run, the
    value under the composed key of an assignment line that no later line
    overwrites is [typed_value] of that line's trimmed value. *)
Theorem vars_last_assignment_wins
    (fs : FileSystem) (p : Params) (r : Result) (d : dict TypedValue)
    (pre post : list string) (broken : option exn) (line k v : string) :
  main fs p = exit_json r ->
  vars r = Some d ->
  fs (path p) = Some (Readable (pre ++ line :: post) broken) ->
  regex_key_value_match line = Some (k, v) ->
  Forall (fun later => forall k' v',
              regex_key_value_match later = Some (k', v') ->
              compose_key p (Str.strip k') <> compose_key p (Str.strip k)) post ->
  exists tv,
    typed_value (Str.strip v) = Return tv
    /\ dict_get d (compose_key p (Str.strip k)) = Some tv.
Proof.
  intros H Hd Hfs Hm Hpost.
  apply main_exit in H as (lines & kvs & Hfs' & Hp & HF & ->).
  rewrite Hfs in Hfs'. injection Hfs' as <- _.
  simpl in Hd. destruct (negb (check_mode p) && some_items kvs); [|discriminate].
  injection Hd as <-.
  rewrite filter_app in HF. simpl in HF.
  unfold is_assignment in HF at 2. rewrite Hm in HF.
  apply Forall2_app_inv_l in HF as (kvs1 & kvs2 & _ & HF2 & ->).
  inversion HF2 as [|? kv ? kvs3 (k0 & v0 & Hm0 & Hkey & _ & Ht) HF3]; subst.
  rewrite Hm in Hm0. injection Hm0 as <- <-.
  exists (snd kv). split; [assumption|].
  unfold dict_of_items. rewrite fold_left_app. simpl.
  change (fold_left (fun d kv => dict_set d (fst kv) (snd kv)) kvs3 ?d0)
    with (dict_update d0 kvs3).
  rewrite dict_get_update_other.
  - rewrite Hkey. apply dict_get_set_same.
  - apply Forall_forall. intros kv' Hkv'.
    destruct (Forall2_In_r _ _ _ _ HF3 Hkv') as (later & Hl & (k' & v' & Hm' & Hkey' & _)).
    apply filter_In in Hl as [Hl _].
    rewrite Forall_forall in Hpost. rewrite Hkey'. eapply Hpost; eauto.
Qed.

Lemma vars_last_assignment_wins_witness :
  exists tv,
    typed_value "no" = Return tv
    /\ dict_get [("A", PyBool false); ("B", PyStr "x")] "A" = Some tv.
Proof.
  apply (vars_last_assignment_wins
           (one_file "/f" [nl "A=1"; nl "A=no"; nl "B=x"])
           {| path := "/f"; prefix := ""; lower := false; check_mode := false |}
           {| changed := false; vars := Some [("A", PyBool false); ("B", PyStr "x")] |}
           [("A", PyBool false); ("B", PyStr "x")]
           [nl "A=1"] [nl "B=x"] None (nl "A=no") "A" "no").
  - vm_compute. reflexivity.
  - reflexivity.
  - reflexivity.
  - reflexivity.
  - constructor; [|constructor].
    intros k' v' H. vm_compute in H. injection H as <- <-. discriminate.
Defined.

(** X5.  The keys of the [vars] of a successful run are exactly the
    composed keys of the assignment lines of the file. *)
Theorem vars_keys_come_from_assignments
    (fs : FileSystem) (p : Params) (r : Result) (d : dict TypedValue)
    (lines : list string) (broken : option exn) (key : string) :
  main fs p = exit_json r ->
  vars r = Some d ->
  fs (path p) = Some (Readable lines broken) ->
  In key (dict_keys d) <->
  exists line k v,
    In line lines
    /\ regex_key_value_match line = Some (k, v)
    /\ key = compose_key p (Str.strip k).
Proof.
  intros H Hd Hfs.
  apply main_exit in H as (lines' & kvs & Hfs' & Hp & HF & ->).
  rewrite Hfs in Hfs'. injection Hfs' as <- _.
  simpl in Hd. destruct (negb (check_mode p) && some_items kvs); [|discriminate].
  injection Hd as <-. unfold dict_of_items.
  change (fold_left (fun d kv => dict_set d (fst kv) (snd kv)) kvs [])
    with (dict_update (@nil (string * TypedValue)) kvs).
  rewrite dict_keys_update. split.
  - intros [[]|Hk]. apply in_map_iff in Hk as (kv & <- & Hkv).
    destruct (Forall2_In_r _ _ _ _ HF Hkv) as (line & Hl & (k & v & Hm & Hkey & _)).
    apply filter_In in Hl as [Hl _]. eauto 6.
  - intros (line & k & v & Hl & Hm & ->). right.
    assert (In line (filter is_assignment lines)) as Hl'
      by (apply filter_In; split; [assumption|]; unfold is_assignment; now rewrite Hm).
    destruct (Forall2_In_l _ _ _ _ HF Hl') as (kv & Hkv & (k' & v' & Hm' & Hkey & _)).
    rewrite Hm in Hm'. injection Hm' as <- <-.
    apply in_map_iff. exists kv. auto.
Qed.

Lemma vars_keys_come_from_assignments_witness :
  In "BAZ" ["FOO"; "BAR"; "BAZ"; "QUX"].
Proof.
  apply (proj2 (vars_keys_come_from_assignments sample_fs sample_params
           {| changed := false;
              vars := Some [("FOO", PyList [PyBool true; PyStr "2"; PyStr "3"]);
                            ("BAR", PyDict [("a", PyBool true); ("b", PyStr "2")]);
                            ("BAZ", PyBool true);
                            ("QUX", PyStr "hello world")] |}
           [("FOO", PyList [PyBool true; PyStr "2"; PyStr "3"]);
            ("BAR", PyDict [("a", PyBool true); ("b", PyStr "2")]);
            ("BAZ", PyBool true);
            ("QUX", PyStr "hello world")]
           sample_file None "BAZ" eq_refl eq_refl eq_refl)).
  exists (nl "BAZ=yes"), "BAZ", "yes". repeat split. simpl. auto.
Defined.

(** X6.  Lines that are no assignment (comments, blank lines, shell code)
    have no effect at all: the run on the file is the run on its
    assignment lines alone. *)
Theorem non_assignment_lines_are_ignored
    (fs : FileSystem) (p : Params) :
  main (assignments_only fs) p = main fs p.
Proof.
  unfold main, assignments_only.
  destruct (fs (path p)) as [[e|lines broken]|]; simpl; try reflexivity.
  destruct (Str.nonempty (prefix p) && negb (regex_key_match (prefix p))); [reflexivity|].
  now rewrite read_lines_filter.
Qed.

(** X7.  Check mode runs the same checks and the same typing: the run
    ends as it does outside check mode, the same failure or the same
    exception included, only without [vars] in the result. *)
Theorem check_mode_only_drops_vars
    (fs : FileSystem) (p : Params) :
  main fs (with_check_mode true p) = drop_vars (main fs p).
Proof.
  unfold main. simpl. destruct (fs (path p)) as [[e|lines broken]|]; [| |reflexivity].
  - destruct (Str.nonempty (prefix p) && negb (regex_key_match (prefix p))); reflexivity.
  - destruct (Str.nonempty (prefix p) && negb (regex_key_match (prefix p))); [reflexivity|].
    simpl. rewrite (read_lines_check_mode p lines [] false).
    destruct broken, (read_lines p lines [] false); reflexivity.
Qed.

(** X8.  The only exceptions a run lets through are the [ValueError] and
    the [AttributeError] of [typed_value], and those that opening the
    file or reading its lines raises. *)
Theorem uncaught_is_typing_or_file_error (fs : FileSystem) (p : Params) (e : exn) :
  main fs p = uncaught e ->
  e = ValueError \/ e = AttributeError
  \/ fs (path p) = Some (Unreadable e)
  \/ exists lines, fs (path p) = Some (Readable lines (Some e)).
Proof.
  unfold main. destruct (fs (path p)) as [[x|lines broken]|]; [| |discriminate].
  - destruct (Str.nonempty (prefix p) && negb (regex_key_match (prefix p)));
      [discriminate|].
    simpl. intros [= <-]. auto.
  - destruct (Str.nonempty (prefix p) && negb (regex_key_match (prefix p)));
      [discriminate|].
    simpl. intros H. apply end_of_iteration_uncaught in H as [H|[-> _]].
    + apply read_lines_uncaught in H as [H|H]; auto.
    + right. right. right. eauto.
Qed.

Lemma uncaught_is_typing_or_file_error_witness :
  main (fun _ => Some (Readable [nl "A=1"; nl "B=2"] (Some UnicodeDecodeError)))
       {| path := "/f"; prefix := ""; lower := false; check_mode := false |}
  = uncaught UnicodeDecodeError
  /\ (UnicodeDecodeError = ValueError \/ UnicodeDecodeError = AttributeError
      \/ Some (Readable [nl "A=1"; nl "B=2"] (Some UnicodeDecodeError))
         = Some (Unreadable UnicodeDecodeError)
      \/ exists lines,
           Some (Readable [nl "A=1"; nl "B=2"] (Some UnicodeDecodeError))
           = Some (Readable lines (Some UnicodeDecodeError))).
Proof.
  split; [reflexivity|].
  apply (uncaught_is_typing_or_file_error
           (fun _ => Some (Readable [nl "A=1"; nl "B=2"] (Some UnicodeDecodeError)))
           {| path := "/f"; prefix := ""; lower := false; check_mode := false |}).
  reflexivity.
Defined.

(** X9.  Every key of the [vars] of a successful run is the prefix
    followed by the name of an assignment, lower-cased as a whole when
    [lower] is set; with [lower] set, lower-casing a key changes
    nothing. *)
Theorem vars_keys_prefix_and_case
    (fs : FileSystem) (p : Params) (r : Result) (d : dict TypedValue)
    (key : string) :
  main fs p = exit_json r ->
  vars r = Some d ->
  In key (dict_keys d) ->
  (exists k, key_shaped k = true
             /\ key = if lower p then Str.lower (prefix p ++ k) else (prefix p ++ k)%string)
  /\ (lower p = true -> Str.lower key = key).
Proof.
  intros H Hd Hk. apply main_exit in H as (lines & kvs & Hfs & Hp & HF & ->).
  simpl in Hd. destruct (negb (check_mode p) && some_items kvs); [|discriminate].
  injection Hd as <-.
  apply (dict_keys_update kvs key []) in Hk as [[]|Hk].
  apply in_map_iff in Hk as (kv & <- & Hkv).
  destruct (Forall2_In_r _ _ _ _ HF Hkv) as (line & _ & (k & v & Hm & Hkey & _)).
  pose proof (regex_key_value_key_shaped _ _ _ Hm) as Hs.
  rewrite (key_shaped_strip k Hs), compose_key_form in Hkey. split.
  - exists k. auto.
  - intros Hl. rewrite Hkey, Hl. apply lower_idempotent.
Qed.

Lemma vars_keys_prefix_and_case_witness :
  (exists k, key_shaped k = true /\ "p_b" = Str.lower ("P_" ++ k))
  /\ (true = true -> Str.lower "p_b" = "p_b").
Proof.
  apply (vars_keys_prefix_and_case
           (one_file "/f" [nl "# x"; nl "A=1"; nl "B=u,v"])
           {| path := "/f"; prefix := "P_"; lower := true; check_mode := false |}
           {| changed := false;
              vars := Some [("p_a", PyBool true);
                            ("p_b", PyList [PyStr "u"; PyStr "v"])] |}
           [("p_a", PyBool true); ("p_b", PyList [PyStr "u"; PyStr "v"])]
           "p_b").
  - vm_compute. reflexivity.
  - reflexivity.
  - simpl. auto.
Defined.

End MainProperties.

(* ================================================================= *)
(** * More properties of typed_value and of the patterns *)

Section ValueProperties.
Import StrFacts.

(** X10.  [typed_value] raises nothing but [ValueError] (a mapping piece
    that does not unpack into a key and a value) and [AttributeError]
    ([split] on a bool or on a list). *)
Theorem typed_value_raises_value_or_attribute_error (value : string) (e : exn) :
  typed_value value = Raise e -> e = ValueError \/ e = AttributeError.
Proof. apply raise_kinds. Qed.

Lemma typed_value_raises_value_or_attribute_error_witness :
  typed_value "a=1;yes" = Raise AttributeError
  /\ (AttributeError = ValueError \/ AttributeError = AttributeError).
Proof.
  split; [reflexivity|].
  apply (typed_value_raises_value_or_attribute_error "a=1;yes"). reflexivity.
Defined.

(** X11.  What [typed_value] returns is never nested deeper than a list
    of mappings of scalars: a list holds no list, a mapping holds only
    bools and strings. *)
Theorem typed_value_nesting (value : string) (v : TypedValue) :
  typed_value value = Return v -> well_nested v = true.
Proof.
  intros H. destruct (Str.contains Char.comma value) eqn:Hc.
  - rewrite typed_value_comma_path in H by assumption.
    destruct (mapM _ _) as [l|e0|] eqn:Em; simpl in H; try discriminate.
    destruct (_ && _); [discriminate|]. injection H as <-. simpl.
    apply mapM_return_inv in Em. apply forallb_forall. intros y Hy.
    destruct (Forall2_In_r _ _ _ _ Em Hy) as (piece & Hp & Ht).
    destruct (typed_value_comma_free (Str.strip piece)) as [(v & Hv & Hf)|(e' & He & _)].
    + eapply comma_piece_free; eauto.
    + congruence.
    + congruence.
  - destruct (typed_value_comma_free value Hc) as [(v' & Hv & Hf)|(e' & He & _)];
      [|congruence].
    rewrite Hv in H. injection H as <-. destruct v'; simpl in *; congruence.
Qed.

Lemma typed_value_nesting_witness :
  well_nested (PyList [PyDict [("a", PyBool true); ("b", PyStr "2")]; PyStr "x"; PyBool false])
  = true.
Proof.
  apply (typed_value_nesting "a=1;b=2, 'x' ,no"). reflexivity.
Defined.

(** X12.  [typed_value] returns a bool exactly when the string, with one
    pair of surrounding quotes removed, is a boolean token up to case;
    quotes do not keep a token a string. *)
Theorem typed_value_bool_iff (value : string) (b : bool) :
  typed_value value = Return (PyBool b) <->
  mem (Str.lower (unquote value)) BOOLEANS = true
  /\ b = mem (Str.lower (unquote value)) BOOLEANS_TRUE.
Proof.
  split.
  - intros H. destruct (Str.contains Char.comma value) eqn:Hc.
    + rewrite typed_value_comma_path in H by assumption.
      destruct (mapM _ _) as [l|e0|]; simpl in H; try discriminate.
      destruct (_ && _); discriminate.
    + destruct (Str.contains Char.semicolon value && Str.contains Char.equals value) eqn:Hm.
      * apply andb_true_iff in Hm as [Hs He].
        rewrite typed_value_mapping_path in H by assumption.
        destruct (foldM _ _ _); simpl in H; discriminate.
      * rewrite typed_value_leaf in H by assumption.
        unfold leaf in H.
        destruct (mem (Str.lower (unquote value)) BOOLEANS); [|discriminate].
        injection H as <-. auto.
  - intros [Hm ->]. pose proof (token_shape _ Hm) as (Hc & Hs & _).
    rewrite Str_lower_contains_low in Hc, Hs by (vm_compute; lia).
    rewrite unquote_contains in Hc, Hs by reflexivity.
    rewrite typed_value_leaf by (auto; now rewrite Hs).
    unfold leaf. now rewrite Hm.
Qed.

Lemma typed_value_bool_iff_witness :
  typed_value "' Off '" = Return (PyBool false).
Proof.
  apply (proj2 (typed_value_bool_iff "' Off '" false)). split; reflexivity.
Defined.

(** X13.  [typed_value] returns a string exactly when the string, with
    one pair of surrounding quotes removed, has no comma, not both a
    semicolon and an equals sign, and is no boolean token; what it
    returns is that unquoted string. *)
Theorem typed_value_text_iff (value t : string) :
  typed_value value = Return (PyStr t) <->
  t = unquote value
  /\ Str.contains Char.comma t = false
  /\ Str.contains Char.semicolon t && Str.contains Char.equals t = false
  /\ mem (Str.lower t) BOOLEANS = false.
Proof.
  split.
  - intros H. destruct (Str.contains Char.comma value) eqn:Hc.
    + rewrite typed_value_comma_path in H by assumption.
      destruct (mapM _ _) as [l|e0|]; simpl in H; try discriminate.
      destruct (_ && _); discriminate.
    + destruct (Str.contains Char.semicolon value && Str.contains Char.equals value) eqn:Hm.
      * apply andb_true_iff in Hm as [Hs He].
        rewrite typed_value_mapping_path in H by assumption.
        destruct (foldM _ _ _); simpl in H; discriminate.
      * rewrite typed_value_leaf in H by assumption.
        unfold leaf in H.
        destruct (mem (Str.lower (unquote value)) BOOLEANS) eqn:Hb; [discriminate|].
        injection H as <-.
        rewrite !unquote_contains by reflexivity. auto.
  - intros (-> & Hc & Hm & Hb).
    rewrite unquote_contains in Hc by reflexivity.
    rewrite (unquote_contains Char.semicolon), (unquote_contains Char.equals) in Hm
      by reflexivity.
    rewrite typed_value_leaf by assumption.
    unfold leaf. now rewrite Hb.
Qed.

Lemma typed_value_text_iff_witness :
  typed_value "' a=1 '" = Return (PyStr "a=1").
Proof.
  apply (proj2 (typed_value_text_iff "' a=1 '" "a=1")). repeat split.
Defined.

(** X14.  The dict test also runs on the list of the step before: when
    the typed pieces of a string with a comma include both the string
    [;] and the string [=], the call raises [AttributeError]. *)
Theorem typed_value_list_with_both_separators_raises
    (value : string) (vs : list TypedValue) :
  Str.contains Char.comma value = true ->
  Forall2 (fun piece v => typed_value (Str.strip piece) = Return v)
          (Str.split Char.comma (unquote value)) vs ->
  In (PyStr ";") vs ->
  In (PyStr "=") vs ->
  typed_value value = Raise AttributeError.
Proof.
  intros Hc HF H1 H2. rewrite typed_value_comma_path by assumption.
  rewrite (mapM_Forall2 _ _ _ HF). simpl.
  apply existsb_py_eq_str in H1, H2.
  change (String Char.semicolon "") with ";". change (String Char.equals "") with "=".
  now rewrite H1, H2.
Qed.

Lemma typed_value_list_with_both_separators_raises_witness :
  typed_value "a, = ,b,';'" = Raise AttributeError.
Proof.
  apply (typed_value_list_with_both_separators_raises
           "a, = ,b,';'" [PyStr "a"; PyStr "="; PyStr "b"; PyStr ";"]).
  - reflexivity.
  - repeat constructor.
  - simpl. auto.
  - simpl. auto.
Defined.

(** X15.  The line pattern matches exactly the lines that start with a
    name of the key shape and an [=]; the key is that name, the value is
    all that follows up to the end of the line, the first newline not
    included.  So the key ends at the first [=], and any further [=]
    belongs to the value. *)
Theorem regex_key_value_match_iff (line k v : string) :
  regex_key_value_match line = Some (k, v) <->
  key_shaped k = true
  /\ Str.contains Char.newline v = false
  /\ exists rest,
       line = (k ++ String Char.equals (v ++ rest))%string
       /\ (rest = EmptyString \/ Str.startswith Char.newline rest = true).
Proof.
  split.
  - intros H. split; [eapply regex_key_value_key_shaped; eauto|].
    destruct line as [|c s]; simpl in H; [discriminate|].
    destruct (is_key_start c); [|discriminate].
    destruct (key_tail_value s) as [[body v']|] eqn:E; [|discriminate].
    injection H as <- <-.
    apply key_tail_value_split in E as (rest & -> & Hr & Hn).
    split; [assumption|]. exists rest. auto.
  - intros (Hk & Hn & rest & -> & Hr).
    destruct k as [|c body]; simpl in *; [discriminate|].
    apply andb_true_iff in Hk as [Hc Hb]. rewrite Hc.
    now rewrite key_tail_value_append.
Qed.

Lemma regex_key_value_match_iff_witness :
  regex_key_value_match (nl "OPTS=a=1;b=2") = Some ("OPTS", "a=1;b=2").
Proof.
  apply (proj2 (regex_key_value_match_iff (nl "OPTS=a=1;b=2") "OPTS" "a=1;b=2")).
  repeat split. exists (String Char.newline EmptyString). split; [reflexivity | now right].
Defined.

(** X16.  The key pattern accepts the names of the key shape and, since
    [$] also holds before a final newline, such a name followed by one
    newline; nothing else. *)
Theorem regex_key_match_iff (s : string) :
  regex_key_match s = true <->
  key_shaped s = true
  \/ exists k, key_shaped k = true /\ s = (k ++ String Char.newline EmptyString)%string.
Proof.
  destruct s as [|c s]; simpl.
  - split; [discriminate|]. intros [H|(k & Hk & E)]; [discriminate|].
    destruct k; discriminate.
  - rewrite andb_true_iff, key_tail_match_cases. split.
    + intros [Hc [H|(body & Hb & ->)]].
      * left. now rewrite Hc.
      * right. exists (String c body). simpl. now rewrite Hc, Hb.
    + intros [H|(k & Hk & E)].
      * apply andb_true_iff in H as [Hc Hb]. auto.
      * destruct k as [|c' body]; simpl in *; [discriminate|].
        injection E as <- ->. apply andb_true_iff in Hk as [Hc Hb]. eauto.
Qed.

Lemma regex_key_match_iff_witness :
  regex_key_match (nl "my_prefix") = true.
Proof.
  apply (proj2 (regex_key_match_iff (nl "my_prefix"))).
  right. exists "my_prefix". split; reflexivity.
Defined.

End ValueProperties.
